(** * Split instances: a shallow embedding of [rowspit_instances/widget.py]

    The widget [OWSplitInstancesWidget] keeps a table, a combo-box model
    of candidate quantity columns, and a button.  Its method [split]
    repeats every row of the table as many times as the selected column
    says, and leaves that column out of the attributes of the result.

    The file has three parts: the data of the Orange library the widget
    works on (variables, domains, rows, tables and cell values), the
    widget itself as a small state-and-exception monad, and the theorems
    about it. *)

From Stdlib Require Import ZArith List String Bool Lia.
From Stdlib Require Import Floats.SpecFloat.
Import ListNotations.
Local Open Scope string_scope.
Local Open Scope Z_scope.

(** ** Cell values

    The numeric part of an Orange table is a [float64] array.  A cell is
    modelled by its exact IEEE-754 value ([spec_float]: signed zero,
    infinity, NaN, or [(-1)^s * m * 2^e]).  The widget only tests and
    compares cells, it never rounds. *)

Module Float.

Definition float := spec_float.

(** [np.isnan(v)] *)
Definition isnan (f : float) : bool :=
  match f with
  | S754_nan => true
  | _ => false
  end.

(** The signed mantissa of a finite float. *)
Definition mantissa (s : bool) (m : positive) : Z :=
  if s then Z.neg m else Z.pos m.

(** [np.equal(np.mod(v, 1), 0)]: [fmod] is exact, the sign adjustment
    of [np.mod] maps a non-zero remainder into (0, 1], and the remainder
    of an infinity or of NaN is NaN, which equals nothing. *)
Definition mod1_is_zero (f : float) : bool :=
  match f with
  | S754_zero _ => true
  | S754_finite _ m e =>
      if 0 <=? e then true else Z.pos m mod 2 ^ (- e) =? 0
  | S754_infinity _ | S754_nan => false
  end.

(** [n < v] for a Python [int] n: the comparison of an int with a float
    is exact.  The widget never compares with NaN: the loop of [split]
    is guarded by [np.isnan]. *)
Definition int_lt (n : Z) (f : float) : bool :=
  match f with
  | S754_zero _ => n <? 0
  | S754_infinity s => negb s
  | S754_nan => false
  | S754_finite s m e =>
      if 0 <=? e then n <? mantissa s m * 2 ^ e
      else n * 2 ^ (- e) <? mantissa s m
  end.

(** [int(v)]: the integer part of a finite float, rounded towards zero
    (0 is returned where Python raises, on infinities and NaN). *)
Definition to_int (f : float) : Z :=
  match f with
  | S754_finite s m e =>
      if 0 <=? e then mantissa s m * 2 ^ e
      else Z.quot (mantissa s m) (2 ^ (- e))
  | _ => 0
  end.

(** The float with integer value [z]. *)
Definition of_int (z : Z) : float :=
  match z with
  | Z0 => S754_zero false
  | Zpos p => S754_finite false p 0
  | Zneg p => S754_finite true p 0
  end.

End Float.

(** A cell read from a row: a float (attributes, class variables and
    numeric metas) or a string (text metas). *)
Inductive value :=
| Num (f : Float.float)
| Str (s : string).

(** ** Exceptions and results *)

Inductive exn :=
| AttributeError
| IndexError
| TypeError
| ValueError.

(** The result of running a piece of the program: a value, a raised
    exception, or a loop that did not finish within the given fuel. *)
Inductive outcome (A : Type) :=
| Ok (a : A)
| Raise (e : exn)
| OutOfFuel.

Arguments Ok {A} a.
Arguments Raise {A} e.
Arguments OutOfFuel {A}.

Definition obind {A B} (c : outcome A) (k : A -> outcome B) : outcome B :=
  match c with
  | Ok a => k a
  | Raise e => Raise e
  | OutOfFuel => OutOfFuel
  end.

Declare Scope outcome_scope.
Delimit Scope outcome_scope with outcome.
Notation "x <- c ;; k" := (obind c (fun x => k))
  (at level 100, c at next level, right associativity) : outcome_scope.

(** [[f(x) for x in l]] where [f] may raise. *)
Fixpoint omap {A B} (f : A -> outcome B) (l : list A) : outcome (list B) :=
  match l with
  | [] => Ok []
  | a :: l' =>
      (b <- f a ;; bs <- omap f l' ;; Ok (b :: bs))%outcome
  end.

(** [[x for x in l if p(x)]] where [p] may raise. *)
Fixpoint ofilter {A} (p : A -> outcome bool) (l : list A) : outcome (list A) :=
  match l with
  | [] => Ok []
  | a :: l' =>
      (b <- p a ;; r <- ofilter p l' ;; Ok (if b then a :: r else r))%outcome
  end.

(** [for x in l: acc = body(acc, x)] *)
Fixpoint ofold {A B} (body : A -> B -> outcome A) (l : list B) (acc : A)
  : outcome A :=
  match l with
  | [] => Ok acc
  | b :: l' => (acc' <- body acc b ;; ofold body l' acc')%outcome
  end.

(** [np.isnan] and the integrality test on a cell; both raise
    [TypeError] on a string. *)
Definition np_isnan (v : value) : outcome bool :=
  match v with
  | Num f => Ok (Float.isnan f)
  | Str _ => Raise TypeError
  end.

Definition np_mod1_equal0 (v : value) : outcome bool :=
  match v with
  | Num f => Ok (Float.mod1_is_zero f)
  | Str _ => Raise TypeError
  end.

Definition int_lt_value (n : Z) (v : value) : outcome bool :=
  match v with
  | Num f => Ok (Float.int_lt n f)
  | Str _ => Raise TypeError
  end.

(** ** The Orange data model: variables, domains, rows, tables *)

(** The classes of column descriptors.  [TimeVariable] is a subclass of
    [ContinuousVariable]. *)
Inductive var_class :=
| ContinuousVariable
| TimeVariable
| DiscreteVariable
| StringVariable.

(** A column descriptor ([Orange.data.Variable]): its name and class. *)
Record Var := {
  name : string;
  cls : var_class
}.

(** [isinstance(var, ContinuousVariable)] *)
Definition is_continuous (v : Var) : bool :=
  match cls v with
  | ContinuousVariable | TimeVariable => true
  | DiscreteVariable | StringVariable => false
  end.

(** [Domain(attributes, class_vars, metas)] *)
Record Domain := {
  attributes : list Var;
  class_vars : list Var;
  metas : list Var
}.

(** [domain.variables]: the attributes followed by the class variables. *)
Definition variables (d : Domain) : list Var :=
  attributes d ++ class_vars d.

(** [domain.empty()]: no variables and no metas. *)
Definition Domain_empty (d : Domain) : bool :=
  match variables d, metas d with
  | [], [] => true
  | _, _ => false
  end.

(** Where a column lives: Orange numbers the variables 0, 1, ... and the
    metas -1, -2, ... *)
Inductive position :=
| InVariables (i : nat)
| InMetas (i : nat).

Fixpoint find_name (key : string) (vs : list Var) : option nat :=
  match vs with
  | [] => None
  | v :: vs' =>
      if String.eqb (name v) key then Some O
      else option_map S (find_name key vs')
  end.

(** [domain.index(key)], for a key that is a column name or a variable
    (looked up by its name); column names are unique in a domain.
    [ValueError] when the domain has no such column. *)
Definition Domain_index (d : Domain) (key : string) : outcome position :=
  match find_name key (variables d) with
  | Some i => Ok (InVariables i)
  | None =>
      match find_name key (metas d) with
      | Some i => Ok (InMetas i)
      | None => Raise ValueError
      end
  end.

(** [domain[key]] *)
Definition Domain_getitem (d : Domain) (key : string) : outcome Var :=
  (p <- Domain_index d key ;;
   match p with
   | InVariables i =>
       match nth_error (variables d) i with
       | Some v => Ok v
       | None => Raise IndexError
       end
   | InMetas i =>
       match nth_error (metas d) i with
       | Some v => Ok v
       | None => Raise IndexError
       end
   end)%outcome.

(** A row of a table: its attribute values, class values and metas. *)
Record Row := {
  x : list Float.float;
  y : list Float.float;
  row_metas : list value
}.

(** [row[key]] for a row of a table with domain [d]. *)
Definition Row_getitem (d : Domain) (r : Row) (key : string) : outcome value :=
  (p <- Domain_index d key ;;
   match p with
   | InVariables i =>
       if (i <? List.length (attributes d))%nat then
         match nth_error (x r) i with
         | Some f => Ok (Num f)
         | None => Raise IndexError
         end
       else
         match nth_error (y r) (i - List.length (attributes d)) with
         | Some f => Ok (Num f)
         | None => Raise IndexError
         end
   | InMetas i =>
       match nth_error (row_metas r) i with
       | Some v => Ok v
       | None => Raise IndexError
       end
   end)%outcome.

Record Table := {
  domain : Domain;
  rows : list Row
}.

(** [Table.from_domain(domain)]: a table with no rows. *)
Definition Table_from_domain (d : Domain) : Table :=
  {| domain := d; rows := [] |}.

(** [table.append(instance)] *)
Definition Table_append (t : Table) (r : Row) : Table :=
  {| domain := domain t; rows := rows t ++ [r] |}.

(** The value of a column of the numeric part must be a float. *)
Definition as_float (v : value) : outcome Float.float :=
  match v with
  | Num f => Ok f
  | Str _ => Raise ValueError
  end.

(** [Instance(new_domain, row)]: the row converted to [new_domain], each
    column of which is looked up in the domain [d] of the row. *)
Definition Instance (new_domain d : Domain) (r : Row) : outcome Row :=
  (xs <- omap (fun var => v <- Row_getitem d r (name var) ;; as_float v)
              (attributes new_domain) ;;
   ys <- omap (fun var => v <- Row_getitem d r (name var) ;; as_float v)
              (class_vars new_domain) ;;
   ms <- omap (fun var => Row_getitem d r (name var)) (metas new_domain) ;;
   Ok {| x := xs; y := ys; row_metas := ms |})%outcome.

(** ** The widget

    The state of an [OWSplitInstancesWidget]: the fields its methods read
    and write, the two Qt controls reduced to what the methods use of
    them, and the record of what was sent on the output. *)

(** An entry of the combo-box model [self.features]: the placeholder
    string, or a column. *)
Inductive item :=
| Label (s : string)
| Column (v : Var).

Record widget := {
  data : option Table;                (* self.data *)
  features : list item;               (* self.features *)
  currentIndex : Z;                   (* self.features_widget.currentIndex() *)
  button_enabled : bool;              (* self.button.isEnabled() *)
  sent : list (option Table)          (* Outputs.data.send, oldest first *)
}.

Definition with_data (d : option Table) (w : widget) : widget :=
  {| data := d; features := features w; currentIndex := currentIndex w;
     button_enabled := button_enabled w; sent := sent w |}.

Definition with_features (fs : list item) (w : widget) : widget :=
  {| data := data w; features := fs; currentIndex := currentIndex w;
     button_enabled := button_enabled w; sent := sent w |}.

Definition with_currentIndex (i : Z) (w : widget) : widget :=
  {| data := data w; features := features w; currentIndex := i;
     button_enabled := button_enabled w; sent := sent w |}.

Definition with_button (b : bool) (w : widget) : widget :=
  {| data := data w; features := features w; currentIndex := currentIndex w;
     button_enabled := b; sent := sent w |}.

Definition with_sent (o : option Table) (w : widget) : widget :=
  {| data := data w; features := features w; currentIndex := currentIndex w;
     button_enabled := button_enabled w; sent := sent w ++ [o] |}.

(** A method of the widget: it runs on the state, returns or raises, and
    leaves a state behind either way. *)
Definition M (A : Type) : Type := widget -> outcome A * widget.

Definition ret {A} (a : A) : M A := fun w => (Ok a, w).

Definition bind {A B} (c : M A) (k : A -> M B) : M B :=
  fun w =>
    match c w with
    | (Ok a, w') => k a w'
    | (Raise e, w') => (Raise e, w')
    | (OutOfFuel, w') => (OutOfFuel, w')
    end.

(** A computation that only reads the state. *)
Definition read {A} (f : widget -> outcome A) : M A := fun w => (f w, w).

(** A state change that cannot fail. *)
Definition update (f : widget -> widget) : M unit := fun w => (Ok tt, f w).

Declare Scope widget_scope.
Delimit Scope widget_scope with widget.
Notation "x <- c ;; k" := (bind c (fun x => k))
  (at level 100, c at next level, right associativity) : widget_scope.
Notation "c ;;; k" := (bind c (fun _ => k))
  (at level 100, k at level 200, right associativity) : widget_scope.

(** The placeholder shown when no column is chosen. *)
Definition select_feature : item := Label "Select Feature".

(** [__init__]: no data, only the placeholder in the model, the button
    disabled. *)
Definition init : widget :=
  {| data := None; features := [select_feature]; currentIndex := 0;
     button_enabled := false; sent := [] |}.

(** Python truth values.  A table is true when it has rows ([__len__]);
    a string is true when it is not empty; a variable is always true. *)
Definition Table_bool (t : Table) : bool :=
  negb (Nat.eqb (List.length (rows t)) 0).

Definition item_bool (it : item) : bool :=
  match it with
  | Label s => negb (String.eqb s "")
  | Column _ => true
  end.

(** [is_integer_col(name)] *)
Definition is_integer_col (self : widget) (var : Var) : outcome bool :=
  match data self with
  | None => Raise AttributeError
  | Some t =>
      (v <- Domain_getitem (domain t) (name var) ;;
       if negb (is_continuous v) then Ok false
       else
         bs <- omap (fun row =>
                       c <- Row_getitem (domain t) row (name var) ;;
                       nan <- np_isnan c ;;
                       if nan then Ok true else np_mod1_equal0 c)
                    (rows t) ;;
         Ok (forallb (fun b => b) bs))%outcome
  end.

(** [set_data(data)].  A table always has a domain, so the test
    [self.data.domain is not None] is left out. *)
Definition set_data (d : option Table) : M unit :=
  (update (with_data d) ;;;
   update (with_features [select_feature]) ;;;
   match d with
   | Some t =>
       if Table_bool t && negb (Domain_empty (domain t)) then
         vs <- read (fun self =>
                       ofilter (is_integer_col self) (variables (domain t))) ;;
         update (fun self =>
                   with_features (features self ++ map Column vs) self)
       else ret tt
   | None => ret tt
   end)%widget.

(** [selected_col()] (its return annotation is not modelled). *)
Definition selected_col (self : widget) : outcome (option item) :=
  let index := currentIndex self in
  if index <? 1 then Ok None
  else
    match nth_error (features self) (Z.to_nat index) with
    | Some it => Ok (Some it)
    | None => Raise IndexError
    end.

(** [feature_changed()] *)
Definition feature_changed : M unit :=
  (sel <- read selected_col ;;
   match sel with
   | Some it =>
       if item_bool it then update (with_button true)
       else update (with_button false)
   | None => update (with_button false)
   end)%widget.

(** [handleNewSignals()] *)
Definition handleNewSignals : M unit :=
  fun self =>
    match data self with
    | None => update (with_sent None) self
    | Some _ => feature_changed self
    end.

(** [.name] of what [selected_col] returned: only a variable has it. *)
Definition getattr_name (sel : option item) : outcome string :=
  match sel with
  | Some (Column v) => Ok (name v)
  | Some (Label _) | None => Raise AttributeError
  end.

(** The inner loop of [split]: [while rows_added < row[col]: ...].
    [fuel] bounds the number of times the condition is tested. *)
Fixpoint split_while (fuel : nat) (d new_domain : Domain) (row : Row)
         (col : string) (res : Table) (rows_added : Z) : outcome Table :=
  match fuel with
  | O => OutOfFuel
  | S fuel' =>
      (c <- Row_getitem d row col ;;
       continue <- int_lt_value rows_added c ;;
       if continue then
         inst <- Instance new_domain d row ;;
         split_while fuel' d new_domain row col
                     (Table_append res inst) (rows_added + 1)
       else Ok res)%outcome
  end.

(** The body of [split] from the new domain to the filled table. *)
Definition split_table (fuel : nat) (t : Table) (col : string) : outcome Table :=
  let without_count_col :=
    filter (fun var => negb (String.eqb (name var) col))
           (variables (domain t)) in
  let new_domain :=
    {| attributes := without_count_col;
       class_vars := class_vars (domain t);
       metas := metas (domain t) |} in
  let res := Table_from_domain new_domain in
  ofold (fun res row =>
           inst <- Instance new_domain (domain t) row ;;
           let res := Table_append res inst in
           let rows_added := 1 in
           c <- Row_getitem (domain t) row col ;;
           nan <- np_isnan c ;;
           if negb nan then
             split_while fuel (domain t) new_domain row col res rows_added
           else Ok res)%outcome
        (rows t) res.

(** [split()]; each inner loop may test its condition [fuel] times. *)
Definition split (fuel : nat) : M unit :=
  (sel <- read selected_col ;;
   col <- read (fun _ => getattr_name sel) ;;
   t <- read (fun self =>
                match data self with
                | Some t => Ok t
                | None => Raise AttributeError
                end) ;;
   res <- read (fun _ => split_table fuel t col) ;;
   update (with_sent (Some res)))%widget.

(** The host delivers an input by calling [set_data] and then
    [handleNewSignals], as [main] does. *)
Definition on_input (d : option Table) : M unit :=
  (set_data d ;;; handleNewSignals)%widget.


(** *** The example of the docstring *)

Module Example.

Definition Name := {| name := "Name"; cls := StringVariable |}.
Definition product := {| name := "product"; cls := StringVariable |}.
Definition quantity := {| name := "quantity"; cls := ContinuousVariable |}.

Definition dom : Domain :=
  {| attributes := [quantity]; class_vars := []; metas := [Name; product] |}.

Definition row (n p : string) (q : Float.float) : Row :=
  {| x := [q]; y := []; row_metas := [Str n; Str p] |}.

Definition orders : Table :=
  {| domain := dom;
     rows := [row "John" "icecream" (Float.of_int 3);
              row "Lisa" "pie" (Float.of_int 2)] |}.

(** Quantities that are missing, zero and negative. *)
Definition stock : Table :=
  {| domain := dom;
     rows := [row "John" "icecream" (Float.of_int 3);
              row "Lisa" "pie" S754_nan;
              row "Mary" "cake" (Float.of_int 0);
              row "Omar" "tea" (Float.of_int (-2))] |}.

(** The same columns and no rows. *)
Definition no_orders : Table := {| domain := dom; rows := [] |}.

(** Quantities that ask for no repetition: missing, one, zero, negative. *)
Definition singles : Table :=
  {| domain := dom;
     rows := [row "John" "icecream" S754_nan;
              row "Lisa" "pie" (Float.of_int 1);
              row "Mary" "cake" (Float.of_int 0);
              row "Omar" "tea" (Float.of_int (-2))] |}.

(** A quantity that is infinite. *)
Definition endless : Table :=
  {| domain := dom;
     rows := [row "John" "icecream" (Float.of_int 2);
              row "Lisa" "pie" (S754_infinity false)] |}.

(** A table with a fractional attribute, the quantity as its class
    variable, and a numeric meta. *)
Definition price := {| name := "price"; cls := ContinuousVariable |}.
Definition id := {| name := "id"; cls := ContinuousVariable |}.

Definition one_and_a_half : Float.float := S754_finite false 3 (-1).

Definition priced : Table :=
  {| domain := {| attributes := [price]; class_vars := [quantity];
                  metas := [id] |};
     rows := [{| x := [one_and_a_half]; y := [Float.of_int 2];
                 row_metas := [Num (Float.of_int 7)] |}] |}.

(** A table with a fractional attribute beside the quantity, and a
    widget whose model lists that attribute, with the entry selected. *)
Definition weight := {| name := "weight"; cls := ContinuousVariable |}.

Definition weighed : Table :=
  {| domain := {| attributes := [weight; quantity]; class_vars := [];
                  metas := [] |};
     rows := [{| x := [one_and_a_half; Float.of_int 2]; y := [];
                 row_metas := [] |}] |}.


End Example.

(** ** Vocabulary of the properties *)

(** What a cell tells [split]: a missing value counts as 1, otherwise the
    integer part of the value. *)
Definition int_or_1 (f : Float.float) : Z :=
  if Float.isnan f then 1 else Float.to_int f.

(** The number of copies of a row whose quantity cell is [f]. *)
Definition copies (f : Float.float) : nat := Z.to_nat (Z.max 1 (int_or_1 f)).

(** A cell that passes the test of [is_integer_col]. *)
Definition integer_cell (f : Float.float) : bool :=
  Float.isnan f || Float.mod1_is_zero f.

(** [res] with the rows [l] appended. *)
Definition Table_extend (t : Table) (l : list Row) : Table :=
  {| domain := domain t; rows := rows t ++ l |}.

(** The domain that [split] builds for column [col]. *)
Definition new_domain (d : Domain) (col : string) : Domain :=
  {| attributes :=
       filter (fun var => negb (String.eqb (name var) col)) (variables d);
     class_vars := class_vars d;
     metas := metas d |}.

(** The rows that [split] is to produce from the converted rows [insts]
    and the quantity cells [fs] of the source rows: each converted row
    repeated, one source row after the other. *)
Definition expand (insts : list Row) (fs : list Float.float) : list Row :=
  flat_map (fun p => repeat (fst p) (copies (snd p))) (combine insts fs).

(** Well-formed tables: the columns of a domain have distinct names, and
    the arrays of a table are rectangular (each row is as wide as the
    domain). *)
Fixpoint unique (l : list string) : bool :=
  match l with
  | [] => true
  | a :: l' => negb (existsb (String.eqb a) l') && unique l'
  end.

Definition Domain_ok (d : Domain) : bool :=
  unique (map name (variables d ++ metas d)).

Definition Row_ok (d : Domain) (r : Row) : bool :=
  Nat.eqb (List.length (x r)) (List.length (attributes d))
  && Nat.eqb (List.length (y r)) (List.length (class_vars d))
  && Nat.eqb (List.length (row_metas r)) (List.length (metas d)).

Definition Table_ok (t : Table) : bool :=
  Domain_ok (domain t) && forallb (Row_ok (domain t)) (rows t).

(** The source row [r] seen through the domain that [split] builds for
    column [col]: the values of the variables other than [col], in
    order, then the class values and the metas as they are. *)
Definition project (d : Domain) (col : string) (r : Row) : Row :=
  {| x := map snd (filter (fun p => negb (String.eqb (name (fst p)) col))
                          (combine (variables d) (x r ++ y r)));
     y := y r;
     row_metas := row_metas r |}.

(** Column [v] of [t] holds, in every row, a float that is missing or has
    no fractional part. *)
Definition integer_valued (t : Table) (v : Var) : Prop :=
  Forall (fun r => exists f,
              Row_getitem (domain t) r (name v) = Ok (Num f)
              /\ (Float.isnan f = true \/ Float.mod1_is_zero f = true))
         (rows t).

(** The fuel that the loops of [split] need for the cells [fs]. *)
Definition fuel_for (fs : list Float.float) : nat := list_max (map copies fs).

(** * Properties *)

(** ** Results of comprehensions and loops *)

Lemma obind_Ok {A B} (c : outcome A) (k : A -> outcome B) (b : B) :
  obind c k = Ok b -> exists a, c = Ok a /\ k a = Ok b.
Proof.
  destruct c as [a| |]; simpl; intros H; try discriminate.
  exists a; split; [reflexivity | exact H].
Qed.

Section Comprehensions.

Context {A B : Type}.

Lemma omap_Ok_Forall2 (f : A -> outcome B) (l : list A) (bs : list B) :
  omap f l = Ok bs <-> Forall2 (fun a b => f a = Ok b) l bs.
Proof.
  revert bs; induction l as [|a l IH]; intros bs; simpl.
  - split; intros H.
    + injection H as <-. constructor.
    + inversion H. reflexivity.
  - split; intros H.
    + apply obind_Ok in H as (b & Hb & H).
      destruct (omap f l) as [bs'| |] eqn:E; simpl in H; try discriminate.
      injection H as <-. constructor; [exact Hb | now apply IH].
    + inversion H as [|a' b l' bs' Hb Hl]; subst.
      rewrite Hb; simpl. apply IH in Hl. rewrite Hl. reflexivity.
Qed.

Lemma omap_total (f : A -> outcome B) (l : list A) :
  Forall (fun a => exists b, f a = Ok b) l -> exists bs, omap f l = Ok bs.
Proof.
  induction 1 as [|a l (b & Hb) _ (bs & Hbs)]; simpl.
  - now exists [].
  - exists (b :: bs). rewrite Hb; simpl. rewrite Hbs. reflexivity.
Qed.

Lemma ofilter_In (p : A -> outcome bool) (l r : list A) (a : A) :
  ofilter p l = Ok r -> (In a r <-> In a l /\ p a = Ok true).
Proof.
  revert r; induction l as [|a0 l IH]; simpl; intros r H.
  - injection H as <-. simpl. tauto.
  - apply obind_Ok in H as (b & Hb & H).
    destruct (ofilter p l) as [r'| |] eqn:E; simpl in H; try discriminate.
    injection H as <-. specialize (IH r' eq_refl).
    destruct b; simpl; rewrite IH; split.
    + intros [<- | [? ?]]; auto.
    + intros [[<- | ?] ?]; auto.
    + intros [? ?]; auto.
    + intros [[<- | ?] Hp]; [congruence | auto].
Qed.

Lemma ofilter_total (p : A -> outcome bool) (l : list A) :
  Forall (fun a => exists b, p a = Ok b) l -> exists r, ofilter p l = Ok r.
Proof.
  induction 1 as [|a l (b & Hb) _ (r & Hr)]; simpl.
  - now exists [].
  - rewrite Hb; simpl. rewrite Hr; simpl. eauto.
Qed.

End Comprehensions.

(** ** Integer-valued cells *)

Lemma int_lt_integral (n : Z) (f : Float.float) :
  Float.isnan f = false -> Float.mod1_is_zero f = true ->
  Float.int_lt n f = (n <? Float.to_int f).
Proof.
  destruct f as [s|s| |s m e]; simpl; try discriminate; intros _ H.
  - reflexivity.
  - destruct (Z.leb_spec 0 e) as [He|He]; [reflexivity|].
    apply Z.eqb_eq in H.
    assert (Hp : 0 < 2 ^ (- e)) by (apply Z.pow_pos_nonneg; lia).
    set (p := 2 ^ (- e)) in *.
    apply Z.mod_divide in H; [|lia]. destruct H as [q Hq].
    assert (Hm : Float.mantissa s m = (if s then - q else q) * p).
    { unfold Float.mantissa. destruct s; lia. }
    rewrite Hm. rewrite Z.quot_mul by lia.
    destruct (Z.ltb_spec (n * p) ((if s then - q else q) * p));
      destruct (Z.ltb_spec n (if s then - q else q)); try reflexivity; nia.
Qed.

Lemma copies_nan (f : Float.float) : Float.isnan f = true -> copies f = 1%nat.
Proof. unfold copies, int_or_1. intros ->. reflexivity. Qed.

Lemma copies_number (f : Float.float) :
  Float.isnan f = false ->
  copies f = S (Z.to_nat (Float.to_int f - 1)).
Proof. unfold copies, int_or_1. intros ->. lia. Qed.

(** ** The loops of [split] *)

Lemma Table_extend_nil (t : Table) : Table_extend t [] = t.
Proof. destruct t; unfold Table_extend; simpl. now rewrite app_nil_r. Qed.

Lemma Table_extend_append (t : Table) (r : Row) (l : list Row) :
  Table_extend (Table_append t r) l = Table_extend t (r :: l).
Proof. unfold Table_extend, Table_append; simpl. now rewrite <- app_assoc. Qed.

Lemma Table_extend_extend (t : Table) (l1 l2 : list Row) :
  Table_extend (Table_extend t l1) l2 = Table_extend t (l1 ++ l2).
Proof. unfold Table_extend; simpl. now rewrite <- app_assoc. Qed.

(** The inner loop on an integer-valued cell: with enough fuel it appends
    the missing copies and stops. *)
Lemma split_while_integral (d nd : Domain) (row inst : Row) (col : string)
      (f : Float.float) :
  Row_getitem d row col = Ok (Num f) ->
  Instance nd d row = Ok inst ->
  Float.isnan f = false -> Float.mod1_is_zero f = true ->
  forall (fuel : nat) (res : Table) (rows_added : Z),
    (Z.to_nat (Float.to_int f - rows_added) < fuel)%nat ->
    split_while fuel d nd row col res rows_added =
    Ok (Table_extend res (repeat inst (Z.to_nat (Float.to_int f - rows_added)))).
Proof.
  intros Hget Hinst Hnan Hint.
  induction fuel as [|fuel IH]; intros res ra Hfuel; [lia|].
  simpl. rewrite Hget; simpl.
  rewrite (int_lt_integral _ _ Hnan Hint).
  destruct (Z.ltb_spec ra (Float.to_int f)) as [Hlt|Hge].
  - rewrite Hinst; simpl. rewrite IH by lia.
    rewrite Table_extend_append. do 2 f_equal.
    replace (Z.to_nat (Float.to_int f - ra))
      with (S (Z.to_nat (Float.to_int f - (ra + 1)))) by lia.
    reflexivity.
  - replace (Z.to_nat (Float.to_int f - ra)) with O by lia.
    simpl. now rewrite Table_extend_nil.
Qed.

(** The loop over the rows. *)
Lemma split_table_rows (fuel : nat) (t : Table) (col : string)
      (insts : list Row) (fs : list Float.float) :
  Forall2 (fun r inst => Instance (new_domain (domain t) col) (domain t) r = Ok inst)
          (rows t) insts ->
  Forall2 (fun r f => Row_getitem (domain t) r col = Ok (Num f)) (rows t) fs ->
  Forall (fun f => integer_cell f = true) fs ->
  Forall (fun f => (copies f <= fuel)%nat) fs ->
  split_table fuel t col =
  Ok {| domain := new_domain (domain t) col; rows := expand insts fs |}.
Proof.
  unfold split_table. fold (new_domain (domain t) col).
  set (nd := new_domain (domain t) col). set (d := domain t).
  change {| domain := nd; rows := expand insts fs |}
    with (Table_extend (Table_from_domain nd) (expand insts fs)).
  clearbody nd d.
  generalize (Table_from_domain nd) as res.
  generalize (rows t) as rs. clear t.
  intros rs res; revert insts fs res.
  induction rs as [|r rs IH]; intros insts fs res Hi Hf Hint Hfuel.
  - inversion Hi; subst. simpl. now rewrite Table_extend_nil.
  - inversion Hi as [|r' inst rs' insts' Hinst Hi']; subst.
    inversion Hf as [|r' f rs' fs' Hget Hf']; subst.
    inversion Hint as [|f' fs'' Hc Hint']; subst.
    inversion Hfuel as [|f' fs'' Hb Hfuel']; subst.
    cbn [ofold]. rewrite Hinst. cbn [obind]. rewrite Hget. cbn [obind np_isnan].
    assert (Hrow :
      (if negb (Float.isnan f)
       then split_while fuel d nd r col (Table_append res inst) 1
       else Ok (Table_append res inst))
      = Ok (Table_extend res (repeat inst (copies f)))).
    { destruct (Float.isnan f) eqn:Hnan; simpl.
      - rewrite copies_nan by assumption. reflexivity.
      - unfold integer_cell in Hc. rewrite Hnan in Hc; simpl in Hc.
        rewrite copies_number in * by assumption.
        rewrite (split_while_integral d nd r inst col f) by (assumption || lia).
        now rewrite Table_extend_append. }
    rewrite Hrow. cbn [obind].
    rewrite (IH insts' fs') by assumption.
    rewrite Table_extend_extend. reflexivity.
Qed.

(** ** Well-formed tables *)

Lemma Table_ok_rows (t : Table) :
  Table_ok t = true -> Forall (fun r => Row_ok (domain t) r = true) (rows t).
Proof.
  unfold Table_ok. intros H. apply andb_true_iff in H as [_ H].
  apply Forall_forall. now apply forallb_forall.
Qed.

Lemma Table_ok_domain (t : Table) :
  Table_ok t = true -> Domain_ok (domain t) = true.
Proof. unfold Table_ok. intros H. now apply andb_true_iff in H as [H _]. Qed.

Lemma find_name_In (v : Var) (vs : list Var) :
  In v vs ->
  exists i, find_name (name v) vs = Some i /\ (i < List.length vs)%nat.
Proof.
  induction vs as [|a vs IH]; simpl; [tauto|]. intros H.
  destruct (String.eqb_spec (name a) (name v)) as [E|E].
  - exists O. split; [reflexivity | lia].
  - destruct H as [-> | H]; [congruence|].
    destruct (IH H) as (i & -> & Hi). exists (S i). split; [reflexivity | lia].
Qed.

Lemma unique_app_l (l1 l2 : list string) :
  unique (l1 ++ l2) = true -> unique l1 = true.
Proof.
  induction l1 as [|a l1 IH]; simpl; [reflexivity|].
  intros H. apply andb_true_iff in H as [Ha H].
  rewrite (IH H), andb_true_r.
  rewrite existsb_app in Ha. now destruct (existsb (String.eqb a) l1).
Qed.

Lemma unique_not_In (a : string) (l : list string) :
  existsb (String.eqb a) l = false -> ~ In a l.
Proof.
  intros H Hin.
  assert (existsb (String.eqb a) l = true) as E.
  { apply existsb_exists. exists a. split; [exact Hin | apply String.eqb_refl]. }
  congruence.
Qed.

(** In a list of variables with distinct names, a variable is found at
    its own place. *)
Lemma find_name_unique (v : Var) (vs : list Var) :
  unique (map name vs) = true -> In v vs ->
  exists i, find_name (name v) vs = Some i /\ nth_error vs i = Some v.
Proof.
  induction vs as [|a vs IH]; simpl; [tauto|].
  intros Hu Hin. apply andb_true_iff in Hu as [Ha Hu].
  apply negb_true_iff in Ha. apply unique_not_In in Ha.
  destruct Hin as [-> | Hin].
  - rewrite String.eqb_refl. now exists O.
  - destruct (String.eqb_spec (name a) (name v)) as [E|E].
    + exfalso. apply Ha. rewrite E. now apply in_map.
    + destruct (IH Hu Hin) as (i & -> & Hi). now exists (S i).
Qed.

Lemma Domain_getitem_variable (d : Domain) (v : Var) :
  Domain_ok d = true -> In v (variables d) ->
  Domain_getitem d (name v) = Ok v.
Proof.
  unfold Domain_ok, Domain_getitem, Domain_index. intros Hu Hin.
  rewrite map_app in Hu. apply unique_app_l in Hu.
  destruct (find_name_unique v _ Hu Hin) as (i & -> & Hi). simpl.
  now rewrite Hi.
Qed.

Lemma nth_error_lt {A} (l : list A) (i : nat) :
  (i < List.length l)%nat -> exists a, nth_error l i = Some a.
Proof.
  intros H. destruct (nth_error l i) as [a|] eqn:E; [eauto|].
  apply nth_error_None in E. lia.
Qed.

(** In a rectangular table a variable of the domain has a float in each
    row. *)
Lemma Row_getitem_variable (d : Domain) (r : Row) (v : Var) :
  Row_ok d r = true -> In v (variables d) ->
  exists f, Row_getitem d r (name v) = Ok (Num f).
Proof.
  unfold Row_ok, Row_getitem, Domain_index. intros Hr Hin.
  apply andb_true_iff in Hr as [Hr _]. apply andb_true_iff in Hr as [Hx Hy].
  apply Nat.eqb_eq in Hx, Hy.
  destruct (find_name_In v _ Hin) as (i & -> & Hi). simpl.
  unfold variables in Hi. rewrite length_app in Hi.
  destruct (Nat.ltb_spec i (List.length (attributes d))) as [Hlt|Hge].
  - destruct (nth_error_lt (x r) i) as (f & ->); [lia | eauto].
  - destruct (nth_error_lt (y r) (i - List.length (attributes d))) as (f & ->);
      [lia | eauto].
Qed.

Lemma unique_app_r (l1 l2 : list string) :
  unique (l1 ++ l2) = true -> unique l2 = true.
Proof.
  induction l1 as [|a l1 IH]; simpl; [tauto|].
  intros H. apply andb_true_iff in H as [_ H]. now apply IH.
Qed.

Lemma unique_app_not_In (l1 l2 : list string) (a : string) :
  unique (l1 ++ l2) = true -> In a l2 -> ~ In a l1.
Proof.
  induction l1 as [|b l1 IH]; simpl; [tauto|].
  intros H H2 [-> | H1].
  - apply andb_true_iff in H as [H _]. apply negb_true_iff in H.
    apply unique_not_In in H. apply H. apply in_or_app. now right.
  - apply andb_true_iff in H as [_ H]. now apply (IH H H2).
Qed.

Lemma find_name_absent (key : string) (vs : list Var) :
  ~ In key (map name vs) -> find_name key vs = None.
Proof.
  induction vs as [|a vs IH]; simpl; [reflexivity|]. intros H.
  destruct (String.eqb_spec (name a) key) as [E|E]; [tauto|].
  rewrite IH by tauto. reflexivity.
Qed.

(** With distinct names, the variable at place [i] is found at [i]. *)
Lemma find_name_nth (vs : list Var) (i : nat) (v : Var) :
  unique (map name vs) = true -> nth_error vs i = Some v ->
  find_name (name v) vs = Some i.
Proof.
  revert i; induction vs as [|a vs IH]; intros [|i]; simpl; try discriminate.
  - intros _ [= ->]. now rewrite String.eqb_refl.
  - intros Hu Hi. apply andb_true_iff in Hu as [Ha Hu].
    apply negb_true_iff in Ha. apply unique_not_In in Ha.
    destruct (String.eqb_spec (name a) (name v)) as [E|E].
    + exfalso. apply Ha. rewrite E. apply in_map.
      now apply nth_error_In in Hi.
    + now rewrite (IH i Hu Hi).
Qed.

Lemma Forall2_of_nth {A B} (R : A -> B -> Prop) (l : list A) (l' : list B) :
  List.length l = List.length l' ->
  (forall i a b, nth_error l i = Some a -> nth_error l' i = Some b -> R a b) ->
  Forall2 R l l'.
Proof.
  revert l'; induction l as [|a l IH]; intros [|b l']; simpl;
    try discriminate; intros Hlen H; constructor.
  - apply (H O); reflexivity.
  - apply IH; [congruence|]. intros i. apply (H (S i)).
Qed.

(** A row of a well-formed table, read column by column: the variables
    give the attribute values followed by the class values, the metas
    give the metas. *)
Lemma Row_getitem_variables (d : Domain) (r : Row) :
  Domain_ok d = true -> Row_ok d r = true ->
  Forall2 (fun v f => Row_getitem d r (name v) = Ok (Num f))
          (variables d) (x r ++ y r).
Proof.
  unfold Domain_ok, Row_ok. intros Hu Hr.
  rewrite map_app in Hu. apply unique_app_l in Hu.
  apply andb_true_iff in Hr as [Hr _]. apply andb_true_iff in Hr as [Hx Hy].
  apply Nat.eqb_eq in Hx, Hy.
  apply Forall2_of_nth.
  - unfold variables. rewrite !length_app. congruence.
  - intros i v f Hv Hf. unfold Row_getitem, Domain_index.
    rewrite (find_name_nth _ i v Hu Hv). simpl.
    destruct (Nat.ltb_spec i (List.length (attributes d))) as [Hlt|Hge].
    + rewrite nth_error_app1 in Hf by lia. now rewrite Hf.
    + rewrite nth_error_app2 in Hf by lia. rewrite <- Hx. now rewrite Hf.
Qed.

Lemma Row_getitem_metas (d : Domain) (r : Row) :
  Domain_ok d = true -> Row_ok d r = true ->
  Forall2 (fun v c => Row_getitem d r (name v) = Ok c) (metas d) (row_metas r).
Proof.
  unfold Domain_ok, Row_ok. intros Hu Hr. rewrite map_app in Hu.
  apply andb_true_iff in Hr as [_ Hm]. apply Nat.eqb_eq in Hm.
  apply Forall2_of_nth; [congruence|].
  intros i v c Hv Hc. unfold Row_getitem, Domain_index.
  rewrite find_name_absent.
  - rewrite (find_name_nth _ i v (unique_app_r _ _ Hu) Hv). simpl.
    now rewrite Hc.
  - apply (unique_app_not_In _ _ _ Hu). apply in_map.
    now apply nth_error_In in Hv.
Qed.

Lemma Forall2_filter_combine {A B} (R : A -> B -> Prop) (p : A -> bool)
      (l : list A) (l' : list B) :
  Forall2 R l l' ->
  Forall2 R (filter p l) (map snd (filter (fun q => p (fst q)) (combine l l'))).
Proof.
  induction 1 as [|a b l l' Hab _ IH]; simpl; [constructor|].
  destruct (p a); simpl; [constructor|]; assumption.
Qed.

Lemma Forall2_app_tail {A B} (R : A -> B -> Prop) (l1 l2 : list A)
      (l1' l2' : list B) :
  List.length l1 = List.length l1' ->
  Forall2 R (l1 ++ l2) (l1' ++ l2') -> Forall2 R l2 l2'.
Proof.
  revert l1'; induction l1 as [|a l1 IH]; intros [|b l1']; simpl;
    try discriminate; [auto|].
  intros [= Hlen] H. inversion H; subst. now apply (IH l1').
Qed.

(** [Instance(new_domain, row)] on a row of a well-formed table. *)
Lemma Instance_project (d : Domain) (r : Row) (col : string) :
  Domain_ok d = true -> Row_ok d r = true ->
  Instance (new_domain d col) d r = Ok (project d col r).
Proof.
  intros Hd Hr. unfold Instance, project.
  pose proof (Row_getitem_variables d r Hd Hr) as Hv.
  pose proof (Row_getitem_metas d r Hd Hr) as Hm.
  assert (Hfloat : forall vs fs,
            Forall2 (fun v f => Row_getitem d r (name v) = Ok (Num f)) vs fs ->
            omap (fun var => v <- Row_getitem d r (name var) ;; as_float v)%outcome
                 vs = Ok fs).
  { intros vs fs H. apply omap_Ok_Forall2.
    eapply Forall2_impl; [|exact H]. cbv beta. intros v f ->. reflexivity. }
  unfold new_domain. cbn [attributes class_vars metas].
  rewrite (Hfloat _ _ (Forall2_filter_combine
                         _ (fun var => negb (String.eqb (name var) col))
                         _ _ Hv)).
  cbn [obind].
  rewrite (Hfloat (class_vars d) (y r)).
  - simpl. apply omap_Ok_Forall2 in Hm. rewrite Hm. reflexivity.
  - unfold variables in Hv.
    apply (Forall2_app_tail _ (attributes d) _ (x r)); [|exact Hv].
    unfold Row_ok in Hr. apply andb_true_iff in Hr as [Hr _].
    apply andb_true_iff in Hr as [Hx _]. apply Nat.eqb_eq in Hx. congruence.
Qed.

(** ** Eligible columns *)

Lemma integer_cell_iff (f : Float.float) :
  integer_cell f = true <-> Float.isnan f = true \/ Float.mod1_is_zero f = true.
Proof. unfold integer_cell. apply orb_true_iff. Qed.

(** The test of one row in [is_integer_col]. *)
Lemma integer_row (d : Domain) (key : string) (r : Row) (b : bool) :
  (c <- Row_getitem d r key ;;
   nan <- np_isnan c ;;
   if nan then Ok true else np_mod1_equal0 c)%outcome = Ok b ->
  (b = true <->
   exists f, Row_getitem d r key = Ok (Num f)
             /\ (Float.isnan f = true \/ Float.mod1_is_zero f = true)).
Proof.
  destruct (Row_getitem d r key) as [[f|s]| |]; simpl; try discriminate.
  destruct (Float.isnan f) eqn:Hnan; simpl; intros [= <-].
  - split; [|reflexivity]. intros _. exists f. auto.
  - split.
    + intros H. exists f. auto.
    + intros (f' & [= <-] & [H|H]); congruence.
Qed.

Lemma integer_rows (d : Domain) (key : string) (rs : list Row) (bs : list bool) :
  Forall2 (fun r b =>
             (c <- Row_getitem d r key ;;
              nan <- np_isnan c ;;
              if nan then Ok true else np_mod1_equal0 c)%outcome = Ok b) rs bs ->
  (forallb (fun b => b) bs = true <->
   Forall (fun r => exists f,
               Row_getitem d r key = Ok (Num f)
               /\ (Float.isnan f = true \/ Float.mod1_is_zero f = true)) rs).
Proof.
  induction 1 as [|r b rs bs Hb _ IH]; simpl.
  - split; [constructor | reflexivity].
  - apply integer_row in Hb. rewrite andb_true_iff, IH, Hb. split.
    + intros [? ?]. now constructor.
    + intros H. inversion H. auto.
Qed.

(** What [is_integer_col] answers when it answers yes. *)
Lemma is_integer_col_true (w : widget) (t : Table) (v : Var) :
  data w = Some t -> is_integer_col w v = Ok true ->
  (exists u, Domain_getitem (domain t) (name v) = Ok u /\ is_continuous u = true)
  /\ integer_valued t v.
Proof.
  unfold is_integer_col. intros -> H.
  apply obind_Ok in H as (u & Hu & H).
  destruct (is_continuous u) eqn:Hc; simpl in H; [|discriminate].
  apply obind_Ok in H as (bs & Hbs & [= H]).
  apply omap_Ok_Forall2 in Hbs. split; [eauto|].
  now apply (integer_rows _ _ _ _ Hbs).
Qed.

(** On a well-formed table [is_integer_col] answers for every variable
    of the domain, and answers yes exactly on the continuous variables
    with integer or missing values. *)
Lemma is_integer_col_spec (w : widget) (t : Table) (v : Var) :
  data w = Some t -> Table_ok t = true -> In v (variables (domain t)) ->
  exists b, is_integer_col w v = Ok b
            /\ (b = true <-> is_continuous v = true /\ integer_valued t v).
Proof.
  intros Hd Hok Hin. unfold is_integer_col. rewrite Hd.
  rewrite (Domain_getitem_variable _ _ (Table_ok_domain _ Hok) Hin). simpl.
  destruct (is_continuous v) eqn:Hc; simpl.
  - destruct (omap_total
                (fun row =>
                   c <- Row_getitem (domain t) row (name v) ;;
                   nan <- np_isnan c ;;
                   if nan then Ok true else np_mod1_equal0 c)%outcome
                (rows t)) as (bs & Hbs).
    { eapply Forall_impl; [|apply (Table_ok_rows _ Hok)]. intros r Hr.
      destruct (Row_getitem_variable _ r v Hr Hin) as (f & ->). simpl.
      destruct (Float.isnan f); eauto. }
    rewrite Hbs. simpl. eexists; split; [reflexivity|].
    apply omap_Ok_Forall2 in Hbs.
    rewrite (integer_rows _ _ _ _ Hbs). unfold integer_valued. tauto.
  - exists false. split; [reflexivity|]. split; [discriminate|].
    intros [? _]. discriminate.
Qed.

(** [set_data] step by step. *)
Lemma set_data_Some (t : Table) (w0 : widget) :
  set_data (Some t) w0 =
  let w := with_features [select_feature] (with_data (Some t) w0) in
  if Table_bool t && negb (Domain_empty (domain t)) then
    match ofilter (is_integer_col w) (variables (domain t)) with
    | Ok vs => (Ok tt, with_features (select_feature :: map Column vs) w)
    | Raise e => (Raise e, w)
    | OutOfFuel => (OutOfFuel, w)
    end
  else (Ok tt, w).
Proof.
  unfold set_data, bind, update, read, ret. simpl.
  destruct (Table_bool t && negb (Domain_empty (domain t))); [|reflexivity].
  destruct (ofilter _ _); reflexivity.
Qed.

(** [set_data] on a well-formed table returns, and the columns it lists
    are the continuous variables of a non-empty table whose values are
    all integer or missing. *)
Lemma set_data_eligible (t : Table) (w0 : widget) :
  Table_ok t = true ->
  exists vs,
    set_data (Some t) w0 =
    (Ok tt, with_features (select_feature :: map Column vs)
                          (with_data (Some t) w0))
    /\ forall v, In v vs <->
                 Table_bool t = true /\ In v (variables (domain t))
                 /\ is_continuous v = true /\ integer_valued t v.
Proof.
  intros Hok. rewrite set_data_Some. cbv zeta.
  set (w := with_features [select_feature] (with_data (Some t) w0)).
  assert (Hw : data w = Some t) by reflexivity.
  destruct (Table_bool t) eqn:Hb; simpl.
  - destruct (Domain_empty (domain t)) eqn:He; simpl.
    + exists []. split; [reflexivity|]. intros v. simpl.
      unfold Domain_empty in He. destruct (variables (domain t)); [|discriminate].
      simpl. tauto.
    + destruct (ofilter_total (is_integer_col w) (variables (domain t)))
        as (vs & Hvs).
      { apply Forall_forall. intros v Hin.
        destruct (is_integer_col_spec w t v Hw Hok Hin) as (b & -> & _). eauto. }
      rewrite Hvs. exists vs. split; [reflexivity|]. intros v.
      rewrite (ofilter_In _ _ _ v Hvs). split.
      * intros [Hin Hv].
        destruct (is_integer_col_spec w t v Hw Hok Hin) as (b & Hb' & Hiff).
        assert (b = true) by congruence. tauto.
      * intros (_ & Hin & Hc & Hi). split; [exact Hin|].
        destruct (is_integer_col_spec w t v Hw Hok Hin) as (b & Hb' & Hiff).
        rewrite Hb'. f_equal. tauto.
  - exists []. split; [reflexivity|]. intros v. simpl. split; [tauto|].
    intros [? _]. discriminate.
Qed.

(** ** Running [split] *)

(** [split] reads the selection and the table, builds the result, and
    only then sends it. *)
Lemma split_run (fuel : nat) (w : widget) (t : Table) (C : Var) :
  selected_col w = Ok (Some (Column C)) -> data w = Some t ->
  split fuel w =
  match split_table fuel t (name C) with
  | Ok res => (Ok tt, with_sent (Some res) w)
  | Raise e => (Raise e, w)
  | OutOfFuel => (OutOfFuel, w)
  end.
Proof.
  intros Hsel Hd. unfold split, bind, read, update. rewrite Hsel. simpl.
  rewrite Hd. destruct (split_table fuel t (name C)); reflexivity.
Qed.

(** Whatever the state, [split] either sends one table and changes
    nothing else, or does not return normally and changes nothing. *)
Lemma split_cases (fuel : nat) (w : widget) :
  (exists C t res,
      selected_col w = Ok (Some (Column C)) /\ data w = Some t
      /\ split_table fuel t (name C) = Ok res
      /\ split fuel w = (Ok tt, with_sent (Some res) w))
  \/ (fst (split fuel w) <> Ok tt /\ snd (split fuel w) = w).
Proof.
  unfold split, bind, read, update.
  destruct (selected_col w) as [[[s|C]|]| |] eqn:Hsel; simpl;
    try (right; split; [discriminate | reflexivity]).
  destruct (data w) as [t|] eqn:Hd; simpl;
    try (right; split; [discriminate | reflexivity]).
  destruct (split_table fuel t (name C)) as [res| |] eqn:Hres; simpl;
    try (right; split; [discriminate | reflexivity]).
  left. exists C, t, res. auto.
Qed.

(** The entries of the model after the placeholder. *)
Lemma nth_error_columns (vs : list Var) (i : Z) (it : item) :
  1 <= i ->
  nth_error (select_feature :: map Column vs) (Z.to_nat i) = Some it ->
  exists v, it = Column v /\ In v vs.
Proof.
  intros Hi H.
  replace (Z.to_nat i) with (S (Z.to_nat (i - 1))) in H by lia. simpl in H.
  apply nth_error_In in H. apply in_map_iff in H as (v & <- & Hv). eauto.
Qed.

Lemma fuel_for_enough (fs : list Float.float) (fuel : nat) :
  (fuel_for fs <= fuel)%nat -> Forall (fun f => (copies f <= fuel)%nat) fs.
Proof.
  unfold fuel_for. intros H. apply list_max_le in H.
  apply Forall_forall. intros f Hf. rewrite Forall_forall in H.
  apply H. now apply in_map.
Qed.

Lemma integer_valued_cells (t : Table) (v : Var) :
  integer_valued t v ->
  exists fs,
    Forall2 (fun r f => Row_getitem (domain t) r (name v) = Ok (Num f))
            (rows t) fs
    /\ Forall (fun f => integer_cell f = true) fs.
Proof.
  unfold integer_valued. induction 1 as [|r rs (f & Hf & Hc) _ (fs & H2 & Hall)].
  - exists []. split; constructor.
  - exists (f :: fs). split; constructor; auto. now apply integer_cell_iff.
Qed.

Lemma rows_projected (t : Table) (col : string) :
  Table_ok t = true ->
  Forall2 (fun r inst =>
             Instance (new_domain (domain t) col) (domain t) r = Ok inst)
          (rows t) (map (project (domain t) col) (rows t)).
Proof.
  intros Hok. pose proof (Table_ok_domain _ Hok) as Hd.
  apply Table_ok_rows in Hok.
  induction Hok as [|r rs Hr _ IH]; simpl; constructor; [|exact IH].
  now apply Instance_project.
Qed.

(** The table that [split] sends when column [C], picked from the list
    that [set_data] computed, is selected: its domain is the new domain,
    and its rows are the source rows seen through the new domain, each
    repeated as its quantity cell says, in the order of the source
    rows. *)
Lemma split_selected (t : Table) (w0 w1 : widget) (i : Z) (C : Var) :
  Table_ok t = true ->
  set_data (Some t) w0 = (Ok tt, w1) ->
  1 <= i -> nth_error (features w1) (Z.to_nat i) = Some (Column C) ->
  exists fs,
    Forall2 (fun r f => Row_getitem (domain t) r (name C) = Ok (Num f))
            (rows t) fs
    /\ Forall (fun f => integer_cell f = true) fs
    /\ forall fuel, (fuel_for fs <= fuel)%nat ->
         split fuel (with_currentIndex i w1) =
         (Ok tt,
          with_sent
            (Some {| domain := new_domain (domain t) (name C);
                     rows := expand (map (project (domain t) (name C)) (rows t))
                                    fs |})
            (with_currentIndex i w1)).
Proof.
  intros Hok Hset Hi Hnth.
  destruct (set_data_eligible t w0 Hok) as (vs & Hset' & Hvs).
  rewrite Hset in Hset'. injection Hset' as ->.
  simpl in Hnth. apply nth_error_columns in Hnth as Hin; [|exact Hi].
  destruct Hin as (v & [= <-] & Hin).
  apply Hvs in Hin as (_ & _ & _ & Hint).
  destruct (integer_valued_cells t C Hint) as (fs & Hfs & Hcells).
  exists fs. repeat split; try assumption.
  intros fuel Hfuel.
  rewrite (split_run fuel _ t C).
  - rewrite (split_table_rows fuel t (name C) _ fs (rows_projected t _ Hok));
      auto using fuel_for_enough.
  - unfold selected_col. simpl.
    destruct (Z.ltb_spec i 1); [lia|]. now rewrite Hnth.
  - reflexivity.
Qed.

Lemma expand_length (insts : list Row) (fs : list Float.float) :
  List.length insts = List.length fs ->
  Z.of_nat (List.length (expand insts fs)) =
  fold_right Z.add 0 (map (fun f => Z.max 1 (int_or_1 f)) fs).
Proof.
  unfold expand. revert fs.
  induction insts as [|inst insts IH]; intros [|f fs]; simpl;
    try discriminate; [reflexivity|].
  intros [= H]. rewrite length_app, repeat_length, Nat2Z.inj_add, IH by exact H.
  unfold copies. lia.
Qed.

Lemma Forall2_length_eq {A B} (R : A -> B -> Prop) (l : list A) (l' : list B) :
  Forall2 R l l' -> List.length l = List.length l'.
Proof. induction 1; simpl; congruence. Qed.

(** ** C1: the number of rows of the result *)

(** C1.  For a well-formed table [t] and a column [C] taken from the list
    that [set_data] computed for [t], [split] returns without raising
    (given enough fuel for its loops) and sends a table whose number of
    rows is the sum, over the rows of [t], of [max(1, k)], where [k] is
    the integer value of the row's cell in column [C], or 1 when the cell
    is NaN.  In particular a cell that is zero or negative contributes
    exactly one row. *)
Theorem split_row_count (t : Table) (w0 w1 : widget) (i : Z) (C : Var) :
  Table_ok t = true ->
  set_data (Some t) w0 = (Ok tt, w1) ->
  1 <= i -> nth_error (features w1) (Z.to_nat i) = Some (Column C) ->
  exists fs,
    Forall2 (fun r f => Row_getitem (domain t) r (name C) = Ok (Num f))
            (rows t) fs
    /\ forall fuel, (fuel_for fs <= fuel)%nat ->
         exists res,
           split fuel (with_currentIndex i w1) =
           (Ok tt, with_sent (Some res) (with_currentIndex i w1))
           /\ Z.of_nat (List.length (rows res)) =
              fold_right Z.add 0 (map (fun f => Z.max 1 (int_or_1 f)) fs).
Proof.
  intros Hok Hset Hi Hnth.
  destruct (split_selected t w0 w1 i C Hok Hset Hi Hnth)
    as (fs & Hfs & _ & Hsplit).
  exists fs. split; [exact Hfs|]. intros fuel Hfuel.
  eexists. split; [apply Hsplit; exact Hfuel|]. simpl.
  apply expand_length. rewrite length_map.
  now apply Forall2_length_eq in Hfs.
Qed.

Lemma split_row_count_witness :
  Table_ok Example.stock = true
  /\ set_data (Some Example.stock) init
     = (Ok tt, snd (set_data (Some Example.stock) init))
  /\ 1 <= 1
  /\ nth_error (features (snd (set_data (Some Example.stock) init))) (Z.to_nat 1)
     = Some (Column Example.quantity)
  /\ exists fs,
       Forall2 (fun r f => Row_getitem (domain Example.stock) r
                                        (name Example.quantity) = Ok (Num f))
               (rows Example.stock) fs
       /\ forall fuel, (fuel_for fs <= fuel)%nat ->
            exists res,
              split fuel (with_currentIndex 1 (snd (set_data (Some Example.stock) init))) =
              (Ok tt, with_sent (Some res)
                        (with_currentIndex 1 (snd (set_data (Some Example.stock) init))))
              /\ Z.of_nat (List.length (rows res)) =
                 fold_right Z.add 0 (map (fun f => Z.max 1 (int_or_1 f)) fs).
Proof.
  repeat split; try reflexivity; try lia.
  apply (split_row_count Example.stock init _ 1 Example.quantity);
    [reflexivity | reflexivity | lia | reflexivity].
Defined.

(** The table of the docstring: three copies of John's row, then two of
    Lisa's, without the quantity. *)
Example split_orders :
  sent (snd (split 3 (with_currentIndex 1 (snd (set_data (Some Example.orders) init)))))
  = [Some {| domain := {| attributes := []; class_vars := [];
                          metas := [Example.Name; Example.product] |};
             rows := [ {| x := []; y := []; row_metas := [Str "John"; Str "icecream"] |};
                       {| x := []; y := []; row_metas := [Str "John"; Str "icecream"] |};
                       {| x := []; y := []; row_metas := [Str "John"; Str "icecream"] |};
                       {| x := []; y := []; row_metas := [Str "Lisa"; Str "pie"] |};
                       {| x := []; y := []; row_metas := [Str "Lisa"; Str "pie"] |} ] |}].
Proof. reflexivity. Qed.

(** Missing, zero and negative quantities give one copy each. *)
Example split_stock :
  match split 3 (with_currentIndex 1 (snd (set_data (Some Example.stock) init))) with
  | (Ok tt, w) =>
      match sent w with
      | [Some res] => map row_metas (rows res)
      | _ => []
      end
  | _ => []
  end
  = [ [Str "John"; Str "icecream"]; [Str "John"; Str "icecream"];
      [Str "John"; Str "icecream"]; [Str "Lisa"; Str "pie"];
      [Str "Mary"; Str "cake"]; [Str "Omar"; Str "tea"] ].
Proof. reflexivity. Qed.

(** ** C2: which columns are listed *)

(** C2, as stated, fails on the code in two ways.  A table without rows
    is false in the test of [set_data], so none of its columns is listed,
    although every numeric column has (vacuously) only integer values;
    and a numeric meta with integer values is not listed, since the list
    is drawn from [domain.variables]. *)
Lemma eligible_iff_counterexample :
  (Domain_empty (domain Example.no_orders) = false
   /\ In Example.quantity (variables (domain Example.no_orders))
   /\ is_continuous Example.quantity = true
   /\ integer_valued Example.no_orders Example.quantity
   /\ ~ In (Column Example.quantity)
           (features (snd (set_data (Some Example.no_orders) init))))
  /\ (Domain_empty (domain Example.priced) = false
      /\ In Example.id (metas (domain Example.priced))
      /\ is_continuous Example.id = true
      /\ integer_valued Example.priced Example.id
      /\ ~ In (Column Example.id)
              (features (snd (set_data (Some Example.priced) init)))).
Proof.
  split; repeat split; try reflexivity; simpl; auto.
  - constructor.
  - intros [H|[]]. discriminate.
  - repeat constructor. eexists. split; [reflexivity|]. right. reflexivity.
  - intros [H|[H|[]]]; discriminate.
Qed.

(** C2, amended.  For a well-formed table, [set_data] returns, and a
    column is in the list it computes if and only if the table has at
    least one row and the column is one of [domain.variables] (a feature
    or class column), is a [ContinuousVariable], and has in every row a
    value that is NaN or has zero fractional part.  Columns of another
    class are never listed, and neither are metas. *)
Theorem eligible_iff (t : Table) (w0 : widget) :
  Table_ok t = true ->
  exists w1,
    set_data (Some t) w0 = (Ok tt, w1)
    /\ forall v, In (Column v) (features w1) <->
                 rows t <> [] /\ In v (variables (domain t))
                 /\ is_continuous v = true /\ integer_valued t v.
Proof.
  intros Hok. destruct (set_data_eligible t w0 Hok) as (vs & Hset & Hvs).
  eexists. split; [exact Hset|]. intros v. simpl.
  assert (Hb : Table_bool t = true <-> rows t <> []).
  { unfold Table_bool. destruct (rows t); simpl; split; congruence. }
  rewrite <- Hb, <- Hvs. split.
  - intros [H|H]; [discriminate|].
    apply in_map_iff in H as (u & [= ->] & Hu). exact Hu.
  - intros H. right. now apply in_map.
Qed.

Lemma eligible_iff_witness :
  Table_ok Example.priced = true
  /\ exists w1,
       set_data (Some Example.priced) init = (Ok tt, w1)
       /\ forall v, In (Column v) (features w1) <->
                    rows Example.priced <> []
                    /\ In v (variables (domain Example.priced))
                    /\ is_continuous v = true
                    /\ integer_valued Example.priced v.
Proof.
  split; [reflexivity|].
  apply (eligible_iff Example.priced init). reflexivity.
Defined.

(** ** C3: a table without rows *)

(** C3, as stated, fails on the code: for the columns of the docstring
    and no rows, the numeric column [quantity] is not in the list that
    [set_data] computes. *)
Lemma empty_table_counterexample :
  rows Example.no_orders = []
  /\ Domain_empty (domain Example.no_orders) = false
  /\ In Example.quantity (variables (domain Example.no_orders))
  /\ is_continuous Example.quantity = true
  /\ ~ In (Column Example.quantity)
          (features (snd (set_data (Some Example.no_orders) init))).
Proof.
  repeat split; try reflexivity; simpl; auto.
  intros [H|[]]. discriminate.
Qed.

(** C3, amended.  For a table with zero rows, the per-row check of
    [is_integer_col] is vacuously satisfied, so it accepts every numeric
    column of the domain; but the table is false in the guard of
    [set_data] ([if self.data]), so the list computed when such a table
    arrives holds the placeholder and no column. *)
Theorem empty_table_lists_nothing (t : Table) (w0 : widget) :
  rows t = [] ->
  set_data (Some t) w0 =
  (Ok tt, with_features [select_feature] (with_data (Some t) w0))
  /\ forall v, Domain_ok (domain t) = true ->
               In v (variables (domain t)) -> is_continuous v = true ->
               is_integer_col (snd (set_data (Some t) w0)) v = Ok true.
Proof.
  intros Hrows.
  assert (Hset : set_data (Some t) w0 =
                 (Ok tt, with_features [select_feature] (with_data (Some t) w0))).
  { rewrite set_data_Some. unfold Table_bool. rewrite Hrows. reflexivity. }
  split; [exact Hset|]. intros v Hok Hin Hc. rewrite Hset.
  unfold is_integer_col. simpl.
  rewrite (Domain_getitem_variable _ _ Hok Hin). simpl.
  rewrite Hc, Hrows. reflexivity.
Qed.

Lemma empty_table_lists_nothing_witness :
  rows Example.no_orders = []
  /\ Domain_ok (domain Example.no_orders) = true
  /\ In Example.quantity (variables (domain Example.no_orders))
  /\ is_continuous Example.quantity = true
  /\ set_data (Some Example.no_orders) init =
     (Ok tt, with_features [select_feature] (with_data (Some Example.no_orders) init))
  /\ is_integer_col (snd (set_data (Some Example.no_orders) init))
                    Example.quantity = Ok true.
Proof.
  destruct (empty_table_lists_nothing Example.no_orders init eq_refl)
    as [Hset Hcol].
  split; [reflexivity|]. split; [reflexivity|]. split; [simpl; auto|].
  split; [reflexivity|]. split; [exact Hset|].
  apply Hcol; [reflexivity | simpl; auto | reflexivity].
Defined.

(** ** C4: the domain of the result *)

(** C4 fails on the code when the quantity column is a class variable:
    [split] filters [domain.variables] but passes [domain.class_vars] on
    unchanged, so the domain of the result still has the column. *)
Theorem split_keeps_class_quantity :
  let w := with_currentIndex 1 (snd (set_data (Some Example.priced) init)) in
  selected_col w = Ok (Some (Column Example.quantity))
  /\ exists res,
       split 2 w = (Ok tt, with_sent (Some res) w)
       /\ domain res = {| attributes := [Example.price];
                          class_vars := [Example.quantity];
                          metas := [Example.id] |}
       /\ In Example.quantity (class_vars (domain res)).
Proof.
  split; [reflexivity|]. eexists. split; [reflexivity|].
  split; [reflexivity|]. simpl. auto.
Qed.

(** Without class variables the new domain is the domain of the table
    less the attributes named [col], in order. *)
Lemma new_domain_no_class_vars (d : Domain) (col : string) :
  class_vars d = [] ->
  new_domain d col =
  {| attributes := filter (fun var => negb (String.eqb (name var) col))
                          (attributes d);
     class_vars := [];
     metas := metas d |}.
Proof.
  intros H. unfold new_domain, variables. rewrite H, app_nil_r. reflexivity.
Qed.

(** A class variable other than the quantity is in [domain.variables]
    too, and so enters the new domain twice: among the attributes and
    among the class variables.  ([Domain] is taken here as the plain
    constructor; a version of Orange that checks the names of a domain
    raises at this point instead.) *)
Example split_repeats_class_column :
  let grade := {| name := "grade"; cls := DiscreteVariable |} in
  let t := {| domain := {| attributes := [Example.quantity];
                           class_vars := [grade]; metas := [] |};
              rows := [{| x := [Float.of_int 2]; y := [Float.of_int 0];
                          row_metas := [] |}] |} in
  new_domain (domain t) "quantity"
  = {| attributes := [grade]; class_vars := [grade]; metas := [] |}.
Proof. reflexivity. Qed.

(** ** The list after [set_data] *)

Lemma is_integer_col_data (w1 w2 : widget) (v : Var) :
  data w1 = data w2 -> is_integer_col w1 v = is_integer_col w2 v.
Proof. unfold is_integer_col. now intros ->. Qed.

(** However [set_data] ends, the model holds the placeholder followed by
    columns of [domain.variables] that [is_integer_col] accepted. *)
Lemma set_data_shape (d : option Table) (w0 : widget) :
  exists vs,
    features (snd (set_data d w0)) = select_feature :: map Column vs
    /\ data (snd (set_data d w0)) = d
    /\ sent (snd (set_data d w0)) = sent w0
    /\ forall v, In v vs ->
         exists t, d = Some t /\ In v (variables (domain t))
                   /\ is_integer_col (snd (set_data d w0)) v = Ok true.
Proof.
  destruct d as [t|].
  - rewrite set_data_Some. cbv zeta.
    set (w := with_features [select_feature] (with_data (Some t) w0)).
    destruct (Table_bool t && negb (Domain_empty (domain t)));
      [|exists []; simpl; intuition].
    destruct (ofilter (is_integer_col w) (variables (domain t))) as [vs|e|] eqn:E;
      [|exists []; simpl; intuition|exists []; simpl; intuition].
    exists vs. simpl. repeat split; try reflexivity.
    intros v Hv. apply (ofilter_In _ _ _ v E) in Hv as [Hin Hv].
    exists t. repeat split; [exact Hin|].
    rewrite <- Hv. now apply is_integer_col_data.
  - exists []. simpl. intuition.
Qed.

Lemma unique_disjoint (l1 l2 : list Var) (v : Var) :
  unique (map name (l1 ++ l2)) = true -> In v l1 -> In v l2 -> False.
Proof.
  induction l1 as [|a l1 IH]; simpl; [tauto|].
  intros Hu H1 H2. apply andb_true_iff in Hu as [Ha Hu].
  destruct H1 as [-> | H1]; [|now apply IH].
  apply negb_true_iff in Ha. apply unique_not_In in Ha. apply Ha.
  apply in_map. apply in_or_app. now right.
Qed.

(** ** C5: a column that is not in the list *)



(** ** C6: the rows of the result *)

(** C6 fails on the code when the quantity column is a class variable:
    the rows of the result are the source row converted to the new
    domain, which still has the column, so each copy still carries the
    quantity (here 2) among its class values. *)
Theorem split_keeps_class_quantity_in_rows :
  let w := with_currentIndex 1 (snd (set_data (Some Example.priced) init)) in
  selected_col w = Ok (Some (Column Example.quantity))
  /\ exists res,
       split 2 w = (Ok tt, with_sent (Some res) w)
       /\ rows res =
          [ {| x := [Example.one_and_a_half]; y := [Float.of_int 2];
               row_metas := [Num (Float.of_int 7)] |};
            {| x := [Example.one_and_a_half]; y := [Float.of_int 2];
               row_metas := [Num (Float.of_int 7)] |} ].
Proof.
  split; [reflexivity|]. eexists. split; reflexivity.
Qed.

(** ** C7: the button *)



(** ** C8: no input *)

(** C8.  When the host delivers a null input ([set_data(None)] followed
    by [handleNewSignals]), the widget sends [None] on its output at
    once. *)
Theorem null_input_sends_null (w : widget) :
  on_input None w =
  (Ok tt, with_sent None (with_features [select_feature] (with_data None w)))
  /\ sent (snd (on_input None w)) = (sent w ++ [None])%list.
Proof. split; reflexivity. Qed.

(** ** C9: the model after [set_data] *)

(** C9.  After every call of [set_data] (on no table, or on a table
    whose columns have distinct names), the first entry of the model is
    the string "Select Feature" and every later entry is a continuous
    variable of [domain.variables] of the table; a meta of the table is
    never an entry. *)
Theorem set_data_features (d : option Table) (w0 : widget) :
  (forall t, d = Some t -> Domain_ok (domain t) = true) ->
  exists rest,
    features (snd (set_data d w0)) = Label "Select Feature" :: rest
    /\ Forall (fun it =>
                 exists v t, it = Column v /\ d = Some t
                             /\ In v (variables (domain t))
                             /\ is_continuous v = true) rest
    /\ forall t m, d = Some t -> In m (metas (domain t)) ->
                   ~ In (Column m) (features (snd (set_data d w0))).
Proof.
  intros Hok.
  destruct (set_data_shape d w0) as (vs & Hfs & Hd & _ & Hvs).
  assert (Hall : forall v, In v vs ->
            exists t, d = Some t /\ In v (variables (domain t))
                      /\ is_continuous v = true).
  { intros v Hv. destruct (Hvs v Hv) as (t & Ht & Hin & Hint).
    exists t. repeat split; try assumption.
    apply (is_integer_col_true _ t) in Hint as [(u & Hu & Hc) _];
      [|now rewrite Hd].
    rewrite (Domain_getitem_variable _ _ (Hok t Ht) Hin) in Hu.
    now injection Hu as ->. }
  exists (map Column vs). split; [exact Hfs|]. split.
  - apply Forall_forall. intros it Hit.
    apply in_map_iff in Hit as (v & <- & Hv).
    destruct (Hall v Hv) as (t & Ht & Hin & Hc). exists v, t. auto.
  - intros t m Ht Hm Hin. rewrite Hfs in Hin.
    destruct Hin as [Hin|Hin]; [discriminate|].
    apply in_map_iff in Hin as (v & [= ->] & Hv).
    destruct (Hall m Hv) as (t' & Ht' & Hin & _).
    assert (t' = t) by congruence. subst t'.
    apply (unique_disjoint (variables (domain t)) (metas (domain t)) m);
      auto. apply (Hok t Ht).
Qed.

Lemma set_data_features_witness :
  Domain_ok (domain Example.priced) = true
  /\ exists rest,
       features (snd (set_data (Some Example.priced) init))
       = Label "Select Feature" :: rest
       /\ Forall (fun it =>
                    exists v t, it = Column v /\ Some Example.priced = Some t
                                /\ In v (variables (domain t))
                                /\ is_continuous v = true) rest
       /\ forall t m, Some Example.priced = Some t -> In m (metas (domain t)) ->
                      ~ In (Column m)
                           (features (snd (set_data (Some Example.priced) init))).
Proof.
  split; [reflexivity|].
  apply (set_data_features (Some Example.priced) init).
  intros t [= <-]. reflexivity.
Defined.

(** ** C10: [split] with nothing selected *)

(** C10.  When the index of the combo box is 0 or negative,
    [selected_col] returns [None] and [split] raises [AttributeError] on
    taking its [name]: no table is built and the widget, its output
    included, is as before. *)
Theorem split_nothing_selected (fuel : nat) (w : widget) :
  currentIndex w < 1 ->
  selected_col w = Ok None
  /\ split fuel w = (Raise AttributeError, w).
Proof.
  intros Hi. unfold split, bind, read, selected_col.
  destruct (Z.ltb_spec (currentIndex w) 1); [|lia]. split; reflexivity.
Qed.

Lemma split_nothing_selected_witness :
  currentIndex init < 1
  /\ selected_col init = Ok None
  /\ split 0 init = (Raise AttributeError, init).
Proof.
  split; [reflexivity|]. apply (split_nothing_selected 0 init). reflexivity.
Defined.

(** * Further properties of the widget *)

(** ** What the handlers leave alone *)



(** The three ways [feature_changed] can go. *)
Lemma feature_changed_cases (w : widget) :
  (currentIndex w < 1 /\ feature_changed w = (Ok tt, with_button false w))
  \/ (1 <= currentIndex w
      /\ exists it,
           nth_error (features w) (Z.to_nat (currentIndex w)) = Some it
           /\ feature_changed w = (Ok tt, with_button (item_bool it) w))
  \/ (1 <= currentIndex w
      /\ nth_error (features w) (Z.to_nat (currentIndex w)) = None
      /\ feature_changed w = (Raise IndexError, w)).
Proof.
  unfold feature_changed, bind, read, update, selected_col. cbv zeta.
  destruct (Z.ltb_spec (currentIndex w) 1) as [Hlt|Hge]; [left; auto|].
  right.
  destruct (nth_error (features w) (Z.to_nat (currentIndex w))) as [it|];
    [left | right; auto].
  split; [exact Hge|]. exists it. split; [reflexivity|].
  destruct (item_bool it); reflexivity.
Qed.


(** X2.  The delivery of a table ([set_data] then [handleNewSignals]),
    whether the table has rows or not and whether the handlers return or
    raise, sends nothing on the output: only a null input and [split]
    send. *)
Theorem table_input_sends_nothing (t : Table) (w : widget) :
  sent (snd (on_input (Some t) w)) = sent w
  /\ data (snd (on_input (Some t) w)) = Some t.
Proof.
  unfold on_input, bind.
  destruct (set_data_shape (Some t) w) as (_ & _ & Hd & Hs & _).
  destruct (set_data (Some t) w) as [o w1]. simpl in Hd, Hs.
  destruct o as [[]|e|]; simpl; auto.
  unfold handleNewSignals. rewrite Hd.
  destruct (feature_changed_cases w1)
    as [(_ & ->)|[(_ & it & _ & ->)|(_ & _ & ->)]]; simpl; auto.
Qed.





(** X5.  [split] reads the table and the selection and writes only the
    output, so it can be repeated: when it returns, the widget differs
    only by the table sent, and a second [split] sends the same table
    again. *)
Theorem split_again (fuel : nat) (w w' : widget) :
  split fuel w = (Ok tt, w') ->
  exists res,
    w' = with_sent (Some res) w
    /\ split fuel w' = (Ok tt, with_sent (Some res) w').
Proof.
  intros H.
  destruct (split_cases fuel w)
    as [(C & t & res & Hsel & Hd & Hres & Hsplit)|[Hno _]].
  - rewrite Hsplit in H. injection H as <-. exists res. split; [reflexivity|].
    rewrite (split_run fuel _ t C); [now rewrite Hres | exact Hsel | exact Hd].
  - rewrite H in Hno. now elim Hno.
Qed.

Lemma split_again_witness :
  let w := with_currentIndex 1 (snd (set_data (Some Example.orders) init)) in
  split 3 w = (Ok tt, snd (split 3 w))
  /\ exists res,
       snd (split 3 w) = with_sent (Some res) w
       /\ split 3 (snd (split 3 w)) = (Ok tt, with_sent (Some res) (snd (split 3 w))).
Proof.
  intros w. split; [reflexivity|].
  apply (split_again 3 w). reflexivity.
Defined.

(** ** The rows that [split] sends *)

Lemma copies_pos (f : Float.float) : (1 <= copies f)%nat.
Proof. unfold copies. lia. Qed.

Lemma copies_one (f : Float.float) :
  Float.isnan f = true \/ Float.to_int f <= 1 -> copies f = 1%nat.
Proof.
  unfold copies, int_or_1. intros [-> | H]; [reflexivity|].
  destruct (Float.isnan f); lia.
Qed.

Lemma expand_map {A} (g : A -> Row) (l : list A) (fs : list Float.float) :
  expand (map g l) fs =
  flat_map (fun rf => repeat (g (fst rf)) (copies (snd rf))) (combine l fs).
Proof.
  unfold expand. revert fs. induction l as [|a l IH]; intros [|f fs]; simpl;
    try reflexivity.
  now rewrite IH.
Qed.

Lemma expand_In (insts : list Row) (fs : list Float.float) (inst : Row) :
  List.length insts = List.length fs -> In inst insts ->
  In inst (expand insts fs).
Proof.
  unfold expand. revert fs.
  induction insts as [|a insts IH]; intros [|f fs]; simpl; try discriminate;
    [tauto|].
  intros [= Hlen] [-> | Hin]; apply in_or_app.
  - left. pose proof (copies_pos f). destruct (copies f); [lia|]. now left.
  - right. now apply IH.
Qed.

Lemma expand_once (insts : list Row) (fs : list Float.float) :
  List.length insts = List.length fs ->
  Forall (fun f => copies f = 1%nat) fs -> expand insts fs = insts.
Proof.
  unfold expand. revert fs.
  induction insts as [|a insts IH]; intros [|f fs]; simpl; try discriminate;
    [reflexivity|].
  intros [= Hlen] H. inversion H as [|f' fs' Hf Hfs]; subst.
  rewrite Hf. simpl. f_equal. now apply IH.
Qed.

Lemma expand_length_ge (insts : list Row) (fs : list Float.float) :
  List.length insts = List.length fs ->
  (List.length insts <= List.length (expand insts fs))%nat.
Proof.
  unfold expand. revert fs.
  induction insts as [|a insts IH]; intros [|f fs]; simpl; try discriminate;
    [lia|].
  intros [= Hlen]. rewrite length_app, repeat_length.
  pose proof (copies_pos f). specialize (IH fs Hlen). lia.
Qed.

(** X6.  For a well-formed table and a column [C] of the list that
    [set_data] computed, the rows that [split] sends are the source rows
    in their order, each converted to the new domain and repeated
    [max(1, k)] times, the copies of a row next to one another; and the
    conversion [Instance(new_domain, row)] of a row is the row with the
    values of the variables other than [C], followed by its class values
    and its metas as they are. *)
Theorem split_rows_in_order (t : Table) (w0 w1 : widget) (i : Z) (C : Var) :
  Table_ok t = true ->
  set_data (Some t) w0 = (Ok tt, w1) ->
  1 <= i -> nth_error (features w1) (Z.to_nat i) = Some (Column C) ->
  exists fs,
    Forall2 (fun r f => Row_getitem (domain t) r (name C) = Ok (Num f))
            (rows t) fs
    /\ Forall (fun r => Instance (new_domain (domain t) (name C)) (domain t) r
                        = Ok (project (domain t) (name C) r)) (rows t)
    /\ forall fuel, (fuel_for fs <= fuel)%nat ->
         split fuel (with_currentIndex i w1) =
         (Ok tt,
          with_sent
            (Some {| domain := new_domain (domain t) (name C);
                     rows := flat_map
                               (fun rf => repeat (project (domain t) (name C) (fst rf))
                                                 (copies (snd rf)))
                               (combine (rows t) fs) |})
            (with_currentIndex i w1)).
Proof.
  intros Hok Hset Hi Hnth.
  destruct (split_selected t w0 w1 i C Hok Hset Hi Hnth)
    as (fs & Hfs & _ & Hsplit).
  exists fs. split; [exact Hfs|]. split.
  - eapply Forall_impl; [|apply (Table_ok_rows _ Hok)]. intros r Hr.
    apply Instance_project; [now apply Table_ok_domain | exact Hr].
  - intros fuel Hfuel. rewrite (Hsplit fuel Hfuel). now rewrite expand_map.
Qed.

Lemma split_rows_in_order_witness :
  let w1 := snd (set_data (Some Example.stock) init) in
  Table_ok Example.stock = true
  /\ set_data (Some Example.stock) init = (Ok tt, w1)
  /\ 1 <= 1
  /\ nth_error (features w1) (Z.to_nat 1) = Some (Column Example.quantity)
  /\ exists fs,
       Forall2 (fun r f => Row_getitem (domain Example.stock) r
                                        (name Example.quantity) = Ok (Num f))
               (rows Example.stock) fs
       /\ Forall (fun r => Instance (new_domain (domain Example.stock)
                                                (name Example.quantity))
                                    (domain Example.stock) r
                           = Ok (project (domain Example.stock)
                                         (name Example.quantity) r))
                 (rows Example.stock)
       /\ forall fuel, (fuel_for fs <= fuel)%nat ->
            split fuel (with_currentIndex 1 w1) =
            (Ok tt,
             with_sent
               (Some {| domain := new_domain (domain Example.stock)
                                             (name Example.quantity);
                        rows := flat_map
                                  (fun rf =>
                                     repeat (project (domain Example.stock)
                                                     (name Example.quantity) (fst rf))
                                            (copies (snd rf)))
                                  (combine (rows Example.stock) fs) |})
               (with_currentIndex 1 w1)).
Proof.
  intros w1. split; [reflexivity|]. split; [reflexivity|]. split; [lia|].
  split; [reflexivity|].
  apply (split_rows_in_order Example.stock init w1 1 Example.quantity);
    [reflexivity | reflexivity | lia | reflexivity].
Defined.

(** X7.  [split] never loses a row: for a well-formed table and a listed
    column, the table sent has at least as many rows as the source, and
    the conversion of every source row is among them. *)
Theorem split_keeps_every_row (t : Table) (w0 w1 : widget) (i : Z) (C : Var) :
  Table_ok t = true ->
  set_data (Some t) w0 = (Ok tt, w1) ->
  1 <= i -> nth_error (features w1) (Z.to_nat i) = Some (Column C) ->
  exists fuel0, forall fuel, (fuel0 <= fuel)%nat ->
    exists res,
      split fuel (with_currentIndex i w1) =
      (Ok tt, with_sent (Some res) (with_currentIndex i w1))
      /\ (List.length (rows t) <= List.length (rows res))%nat
      /\ forall r, In r (rows t) ->
           exists r', In r' (rows res)
                      /\ Instance (domain res) (domain t) r = Ok r'.
Proof.
  intros Hok Hset Hi Hnth.
  destruct (split_selected t w0 w1 i C Hok Hset Hi Hnth)
    as (fs & Hfs & _ & Hsplit).
  apply Forall2_length_eq in Hfs.
  assert (Hlen : List.length (map (project (domain t) (name C)) (rows t))
                 = List.length fs) by now rewrite length_map.
  exists (fuel_for fs). intros fuel Hfuel.
  eexists. split; [apply Hsplit; exact Hfuel|]. cbn [rows domain]. split.
  - rewrite <- (length_map (project (domain t) (name C)) (rows t)) at 1.
    now apply expand_length_ge.
  - intros r Hr. exists (project (domain t) (name C) r). split.
    + apply expand_In; [exact Hlen | now apply in_map].
    + apply Instance_project; [now apply Table_ok_domain|].
      pose proof (Table_ok_rows _ Hok) as Hrows.
      rewrite Forall_forall in Hrows. now apply Hrows.
Qed.

Lemma split_keeps_every_row_witness :
  let w1 := snd (set_data (Some Example.stock) init) in
  Table_ok Example.stock = true
  /\ set_data (Some Example.stock) init = (Ok tt, w1)
  /\ 1 <= 1
  /\ nth_error (features w1) (Z.to_nat 1) = Some (Column Example.quantity)
  /\ exists fuel0, forall fuel, (fuel0 <= fuel)%nat ->
       exists res,
         split fuel (with_currentIndex 1 w1) =
         (Ok tt, with_sent (Some res) (with_currentIndex 1 w1))
         /\ (List.length (rows Example.stock) <= List.length (rows res))%nat
         /\ forall r, In r (rows Example.stock) ->
              exists r', In r' (rows res)
                         /\ Instance (domain res) (domain Example.stock) r = Ok r'.
Proof.
  intros w1. split; [reflexivity|]. split; [reflexivity|]. split; [lia|].
  split; [reflexivity|].
  apply (split_keeps_every_row Example.stock init w1 1 Example.quantity);
    [reflexivity | reflexivity | lia | reflexivity].
Defined.

(** X8.  When every cell of the listed column is missing or at most 1
    (zero and negative included), [split] sends the source rows, each
    once and in order, converted to the new domain: the table without the
    column and nothing repeated. *)
Theorem split_without_repeats (t : Table) (w0 w1 : widget) (i : Z) (C : Var) :
  Table_ok t = true ->
  set_data (Some t) w0 = (Ok tt, w1) ->
  1 <= i -> nth_error (features w1) (Z.to_nat i) = Some (Column C) ->
  Forall (fun r => exists f,
              Row_getitem (domain t) r (name C) = Ok (Num f)
              /\ (Float.isnan f = true \/ Float.to_int f <= 1)) (rows t) ->
  forall fuel, (1 <= fuel)%nat ->
    split fuel (with_currentIndex i w1) =
    (Ok tt,
     with_sent (Some {| domain := new_domain (domain t) (name C);
                        rows := map (project (domain t) (name C)) (rows t) |})
               (with_currentIndex i w1)).
Proof.
  intros Hok Hset Hi Hnth Hsmall fuel Hfuel.
  destruct (split_selected t w0 w1 i C Hok Hset Hi Hnth)
    as (fs & Hfs & _ & Hsplit).
  assert (Hone : Forall (fun f => copies f = 1%nat) fs).
  { clear Hsplit. induction Hfs as [|r f rs fs Hrf _ IH]; constructor.
    - inversion Hsmall as [|r' rs' (f' & Hf' & Hc) _]; subst.
      rewrite Hrf in Hf'. injection Hf' as <-. now apply copies_one.
    - apply IH. now inversion Hsmall. }
  rewrite Hsplit.
  - rewrite expand_once; [reflexivity | | exact Hone].
    rewrite length_map. now apply Forall2_length_eq in Hfs.
  - unfold fuel_for. apply list_max_le. apply Forall_forall.
    intros n Hn. apply in_map_iff in Hn as (f & <- & Hf).
    rewrite Forall_forall in Hone. rewrite (Hone f Hf). exact Hfuel.
Qed.

Lemma split_without_repeats_witness :
  let w1 := snd (set_data (Some Example.singles) init) in
  Table_ok Example.singles = true
  /\ set_data (Some Example.singles) init = (Ok tt, w1)
  /\ 1 <= 1
  /\ nth_error (features w1) (Z.to_nat 1) = Some (Column Example.quantity)
  /\ Forall (fun r => exists f,
                Row_getitem (domain Example.singles) r (name Example.quantity)
                = Ok (Num f)
                /\ (Float.isnan f = true \/ Float.to_int f <= 1))
            (rows Example.singles)
  /\ (1 <= 1)%nat
  /\ split 1 (with_currentIndex 1 w1) =
     (Ok tt,
      with_sent (Some {| domain := new_domain (domain Example.singles)
                                              (name Example.quantity);
                         rows := map (project (domain Example.singles)
                                              (name Example.quantity))
                                     (rows Example.singles) |})
                (with_currentIndex 1 w1)).
Proof.
  intros w1.
  assert (Hsmall : Forall (fun r => exists f,
                Row_getitem (domain Example.singles) r (name Example.quantity)
                = Ok (Num f)
                /\ (Float.isnan f = true \/ Float.to_int f <= 1))
            (rows Example.singles)).
  { repeat constructor; eexists; (split; [reflexivity|]);
      [left; reflexivity | right; simpl; lia | right; simpl; lia
       | right; simpl; lia]. }
  split; [reflexivity|]. split; [reflexivity|]. split; [lia|].
  split; [reflexivity|]. split; [exact Hsmall|]. split; [lia|].
  apply (split_without_repeats Example.singles init w1 1 Example.quantity);
    [reflexivity | reflexivity | lia | reflexivity | exact Hsmall | lia].
Defined.

(** ** Reading the rows of the result *)

Lemma find_name_Some (key : string) (vs : list Var) (j : nat) :
  find_name key vs = Some j ->
  (j < List.length vs)%nat /\ exists v, nth_error vs j = Some v /\ name v = key.
Proof.
  revert j; induction vs as [|a vs IH]; simpl; [discriminate|]. intros j.
  destruct (String.eqb_spec (name a) key) as [E|E].
  - intros [= <-]. split; [lia|]. now exists a.
  - destruct (find_name key vs) as [k|]; simpl; [|discriminate].
    intros [= <-]. destruct (IH k eq_refl) as (Hk & v & Hv & Hn).
    split; [lia|]. now exists v.
Qed.

Lemma find_name_app (key : string) (l1 l2 : list Var) :
  find_name key (l1 ++ l2) =
  match find_name key l1 with
  | Some j => Some j
  | None => option_map (fun k => (List.length l1 + k)%nat) (find_name key l2)
  end.
Proof.
  induction l1 as [|a l1 IH]; simpl.
  - now destruct (find_name key l2).
  - destruct (String.eqb (name a) key); [reflexivity|]. rewrite IH.
    destruct (find_name key l1); [reflexivity|].
    now destruct (find_name key l2).
Qed.

(** Leaving out the columns named [col] does not hide a column of another
    name, and hides every column named [col]. *)
Lemma find_name_filter_other (key col : string) (vs : list Var) :
  key <> col ->
  (find_name key (filter (fun var => negb (String.eqb (name var) col)) vs) = None
   <-> find_name key vs = None).
Proof.
  intros Hne. induction vs as [|a vs IH]; simpl; [tauto|].
  destruct (String.eqb_spec (name a) col) as [Ec|Ec]; simpl.
  - destruct (String.eqb_spec (name a) key) as [Ek|Ek]; [congruence|].
    rewrite IH. destruct (find_name key vs); simpl; split; congruence.
  - destruct (String.eqb_spec (name a) key) as [Ek|Ek]; [tauto|].
    destruct (find_name key vs), (find_name key (filter _ vs)); simpl in *;
      split; try congruence; intros _; exfalso;
      destruct IH as [IH1 IH2]; try (now discriminate IH1);
      try (now discriminate IH2).
Qed.

Lemma find_name_filter_col (col : string) (vs : list Var) :
  find_name col (filter (fun var => negb (String.eqb (name var) col)) vs) = None.
Proof.
  induction vs as [|a vs IH]; simpl; [reflexivity|].
  destruct (String.eqb_spec (name a) col) as [Ec|Ec]; simpl; [exact IH|].
  destruct (String.eqb_spec (name a) col); [contradiction|]. now rewrite IH.
Qed.

Lemma Forall2_nth {A B} (R : A -> B -> Prop) (l : list A) (l' : list B)
      (j : nat) (a : A) :
  Forall2 R l l' -> nth_error l j = Some a ->
  exists b, nth_error l' j = Some b /\ R a b.
Proof.
  intros H; revert j; induction H as [|a0 b0 l l' Hab _ IH]; intros [|j]; simpl;
    try discriminate.
  - intros [= <-]. eauto.
  - apply IH.
Qed.

(** A row converted to the new domain reads, at every column name other
    than [col], as the source row does; this needs nothing of the table
    but that the conversion succeeded. *)
Lemma Instance_getitem_other (d : Domain) (r inst : Row) (col key : string) :
  Instance (new_domain d col) d r = Ok inst -> key <> col ->
  Row_getitem (new_domain d col) inst key = Row_getitem d r key.
Proof.
  intros H Hne. unfold Instance in H.
  apply obind_Ok in H as (xs & Hxs & H).
  apply obind_Ok in H as (ys & Hys & H).
  apply obind_Ok in H as (ms & Hms & [= <-]).
  apply omap_Ok_Forall2 in Hxs, Hms. clear Hys.
  cbn [new_domain attributes class_vars metas] in Hxs, Hms.
  unfold Row_getitem, Domain_index.
  unfold variables at 1. cbn [new_domain attributes class_vars metas x y row_metas].
  rewrite find_name_app.
  pose proof (find_name_filter_other key col (variables d) Hne) as Hfilter.
  destruct (find_name key (filter _ (variables d))) as [j|] eqn:Ej.
  - destruct (find_name key (variables d)) as [i|] eqn:Ei;
      [|destruct Hfilter as [_ Hf]; now discriminate Hf].
    cbn [obind].
    destruct (find_name_Some _ _ _ Ej) as (Hj & v & Hv & Hn).
    destruct (Forall2_nth _ _ _ _ _ Hxs Hv) as (f & Hf & Hget).
    rewrite Hn in Hget.
    apply Nat.ltb_lt in Hj. rewrite Hj, Hf.
    clear Hfilter. unfold Row_getitem, Domain_index in Hget. rewrite Ei in Hget.
    cbn [obind] in *.
    destruct (i <? List.length (attributes d))%nat.
    + destruct (nth_error (x r) i); simpl in Hget; [|discriminate].
      now injection Hget as ->.
    + destruct (nth_error (y r) (i - List.length (attributes d)));
        simpl in Hget; [|discriminate].
      now injection Hget as ->.
  - destruct Hfilter as [Hf _]. specialize (Hf eq_refl). rewrite Hf.
    assert (Hc : find_name key (class_vars d) = None).
    { unfold variables in Hf. rewrite find_name_app in Hf.
      destruct (find_name key (attributes d)); [discriminate|].
      now destruct (find_name key (class_vars d)). }
    rewrite Hc. cbn [option_map].
    destruct (find_name key (metas d)) as [k|] eqn:Ek; [|reflexivity].
    cbn [obind].
    destruct (find_name_Some _ _ _ Ek) as (_ & v & Hv & Hn).
    destruct (Forall2_nth _ _ _ _ _ Hms Hv) as (c & Hc' & Hget).
    rewrite Hn in Hget. rewrite Hc'.
    unfold Row_getitem, Domain_index in Hget. rewrite Hf, Ek in Hget.
    cbn [obind] in Hget. now rewrite Hget.
Qed.

(** The inner loop only appends conversions of its row. *)
Lemma split_while_sources (d nd : Domain) (row : Row) (col : string)
      (fuel : nat) :
  forall (res res' : Table) (rows_added : Z),
    split_while fuel d nd row col res rows_added = Ok res' ->
    domain res' = domain res
    /\ exists l, rows res' = (rows res ++ l)%list
                 /\ Forall (fun r' => Instance nd d row = Ok r') l.
Proof.
  induction fuel as [|fuel IH]; intros res res' ra H; [discriminate|].
  simpl in H.
  apply obind_Ok in H as (c & _ & H).
  apply obind_Ok in H as ([|] & _ & H).
  - apply obind_Ok in H as (inst & Hinst & H).
    apply IH in H as (Hd & l & Hl & Hall). split; [exact Hd|].
    exists (inst :: l). split.
    + rewrite Hl. simpl. now rewrite <- app_assoc.
    + now constructor.
  - injection H as <-. split; [reflexivity|]. exists [].
    split; [now rewrite app_nil_r | constructor].
Qed.

(** Whatever table and column the body of [split] is run on, when it
    returns the result has the new domain and each of its rows is the
    conversion of a source row. *)
Lemma split_table_sources (fuel : nat) (t res : Table) (col : string) :
  split_table fuel t col = Ok res ->
  domain res = new_domain (domain t) col
  /\ Forall (fun r' => exists r,
                 In r (rows t)
                 /\ Instance (new_domain (domain t) col) (domain t) r = Ok r')
            (rows res).
Proof.
  unfold split_table. fold (new_domain (domain t) col).
  set (nd := new_domain (domain t) col).
  set (Q := fun r' => exists r, In r (rows t) /\ Instance nd (domain t) r = Ok r').
  assert (Hgen : forall rs res0 res1,
             incl rs (rows t) -> domain res0 = nd -> Forall Q (rows res0) ->
             ofold (fun res row =>
                      inst <- Instance nd (domain t) row ;;
                      let res := Table_append res inst in
                      let rows_added := 1 in
                      c <- Row_getitem (domain t) row col ;;
                      nan <- np_isnan c ;;
                      if negb nan then
                        split_while fuel (domain t) nd row col res rows_added
                      else Ok res)%outcome rs res0 = Ok res1 ->
             domain res1 = nd /\ Forall Q (rows res1)).
  { induction rs as [|r rs IH]; intros res0 res1 Hincl Hd HQ H.
    - injection H as <-. auto.
    - cbn [ofold] in H. apply obind_Ok in H as (res2 & Hbody & H).
      apply (IH res2 res1); [intros a Ha; apply Hincl; now right | | | exact H].
      + apply obind_Ok in Hbody as (inst & _ & Hbody). cbv zeta in Hbody.
        apply obind_Ok in Hbody as (c & _ & Hbody).
        apply obind_Ok in Hbody as (nan & _ & Hbody).
        destruct nan; simpl in Hbody.
        * injection Hbody as <-. exact Hd.
        * apply split_while_sources in Hbody as (-> & _). exact Hd.
      + assert (Hr : In r (rows t)) by (apply Hincl; now left).
        apply obind_Ok in Hbody as (inst & Hinst & Hbody). cbv zeta in Hbody.
        apply obind_Ok in Hbody as (c & _ & Hbody).
        apply obind_Ok in Hbody as (nan & _ & Hbody).
        assert (HQ1 : Forall Q (rows (Table_append res0 inst))).
        { simpl. apply Forall_app. split; [exact HQ|].
          constructor; [|constructor]. now exists r. }
        destruct nan; simpl in Hbody.
        * now injection Hbody as <-.
        * apply split_while_sources in Hbody as (_ & l & -> & Hl).
          apply Forall_app. split; [exact HQ1|].
          eapply Forall_impl; [|exact Hl]. intros r' Hr'. now exists r. }
  intros H. apply (Hgen (rows t) (Table_from_domain nd) res);
    [apply incl_refl | reflexivity | constructor | exact H].
Qed.

(** X9.  Whenever [split] returns, in whatever state, every row of the
    table sent comes from a row of the source table and reads, at every
    column name other than the selected one, exactly as that source row
    does (the same value, or the same error for a name that is not a
    column): no other field is transformed. *)
Theorem split_copies_other_columns (fuel : nat) (w w' : widget) :
  split fuel w = (Ok tt, w') ->
  exists t C res,
    data w = Some t
    /\ selected_col w = Ok (Some (Column C))
    /\ w' = with_sent (Some res) w
    /\ domain res = new_domain (domain t) (name C)
    /\ forall r', In r' (rows res) ->
         exists r, In r (rows t)
                   /\ forall key, key <> name C ->
                        Row_getitem (domain res) r' key
                        = Row_getitem (domain t) r key.
Proof.
  intros H.
  destruct (split_cases fuel w)
    as [(C & t & res & Hsel & Hd & Hres & Hsplit)|[Hno _]];
    [|rewrite H in Hno; now elim Hno].
  rewrite Hsplit in H. injection H as <-.
  exists t, C, res. repeat split; try assumption; try reflexivity.
  - now apply split_table_sources in Hres.
  - apply split_table_sources in Hres as (Hdom & Hrows).
    intros r' Hr'. rewrite Forall_forall in Hrows.
    destruct (Hrows r' Hr') as (r & Hr & Hinst).
    exists r. split; [exact Hr|]. intros key Hkey. rewrite Hdom.
    now apply Instance_getitem_other.
Qed.

Lemma split_copies_other_columns_witness :
  let w := with_currentIndex 1 (snd (set_data (Some Example.priced) init)) in
  split 2 w = (Ok tt, snd (split 2 w))
  /\ exists t C res,
       data w = Some t
       /\ selected_col w = Ok (Some (Column C))
       /\ snd (split 2 w) = with_sent (Some res) w
       /\ domain res = new_domain (domain t) (name C)
       /\ forall r', In r' (rows res) ->
            exists r, In r (rows t)
                      /\ forall key, key <> name C ->
                           Row_getitem (domain res) r' key
                           = Row_getitem (domain t) r key.
Proof.
  intros w. split; [reflexivity|].
  apply (split_copies_other_columns 2 w). reflexivity.
Defined.

(** X10.  When the selected column is not named like a class variable or
    a meta of the table (it is a feature column), the table that [split]
    sends has lost it: the columns of its domain are the columns of the
    source with another name, no column has the name, and reading the
    name from any row of the result raises [ValueError]. *)
Theorem split_drops_feature_column (fuel : nat) (w w' : widget) (t : Table)
        (C : Var) :
  split fuel w = (Ok tt, w') ->
  data w = Some t -> selected_col w = Ok (Some (Column C)) ->
  ~ In (name C) (map name (class_vars (domain t) ++ metas (domain t))) ->
  exists res,
    w' = with_sent (Some res) w
    /\ (forall v,
           In v (attributes (domain res) ++ class_vars (domain res)
                 ++ metas (domain res))
           <-> In v (variables (domain t) ++ metas (domain t))
               /\ name v <> name C)
    /\ Domain_index (domain res) (name C) = Raise ValueError
    /\ Forall (fun r' => Row_getitem (domain res) r' (name C) = Raise ValueError)
              (rows res).
Proof.
  intros H Hd Hsel Hnot.
  destruct (split_cases fuel w)
    as [(C' & t' & res & Hsel' & Hd' & Hres & Hsplit)|[Hno _]];
    [|rewrite H in Hno; now elim Hno].
  rewrite Hsplit in H. injection H as <-.
  rewrite Hd in Hd'. injection Hd' as <-.
  rewrite Hsel in Hsel'. injection Hsel' as <-.
  apply split_table_sources in Hres as (Hdom & _).
  assert (Hcv : forall v, In v (class_vars (domain t) ++ metas (domain t)) ->
                          name v <> name C).
  { intros v Hv E. apply Hnot. rewrite <- E. now apply in_map. }
  assert (Hidx : Domain_index (new_domain (domain t) (name C)) (name C)
                 = Raise ValueError).
  { unfold Domain_index. unfold variables at 1.
    cbn [new_domain attributes class_vars metas].
    rewrite find_name_app, find_name_filter_col.
    rewrite !find_name_absent; [reflexivity | |];
      intros Hin; apply Hnot; rewrite map_app; apply in_or_app; auto. }
  exists res. split; [reflexivity|]. rewrite Hdom. split; [|split].
  - intros v. cbn [new_domain attributes class_vars metas].
    rewrite !in_app_iff, filter_In. unfold variables. rewrite in_app_iff.
    split.
    + intros [[Hin Hp]|[Hin|Hin]].
      * apply negb_true_iff in Hp.
        destruct (String.eqb_spec (name v) (name C)); [discriminate|].
        tauto.
      * split; [tauto|]. apply Hcv. apply in_or_app. now left.
      * split; [tauto|]. apply Hcv. apply in_or_app. now right.
    + intros [[[Hin|Hin]|Hin] Hne]; [left | right; now left | right; now right].
      split; [now left|].
      apply negb_true_iff. now apply String.eqb_neq.
  - exact Hidx.
  - apply Forall_forall. intros r' _. unfold Row_getitem. now rewrite Hidx.
Qed.

Lemma split_drops_feature_column_witness :
  let w := with_currentIndex 1 (snd (set_data (Some Example.orders) init)) in
  split 3 w = (Ok tt, snd (split 3 w))
  /\ data w = Some Example.orders
  /\ selected_col w = Ok (Some (Column Example.quantity))
  /\ ~ In (name Example.quantity)
          (map name (class_vars (domain Example.orders)
                     ++ metas (domain Example.orders)))
  /\ exists res,
       snd (split 3 w) = with_sent (Some res) w
       /\ (forall v,
              In v (attributes (domain res) ++ class_vars (domain res)
                    ++ metas (domain res))
              <-> In v (variables (domain Example.orders)
                        ++ metas (domain Example.orders))
                  /\ name v <> name Example.quantity)
       /\ Domain_index (domain res) (name Example.quantity) = Raise ValueError
       /\ Forall (fun r' => Row_getitem (domain res) r'
                                        (name Example.quantity)
                            = Raise ValueError)
                 (rows res).
Proof.
  intros w.
  assert (Hnot : ~ In (name Example.quantity)
                      (map name (class_vars (domain Example.orders)
                                 ++ metas (domain Example.orders)))).
  { simpl. intros [H|[H|[]]]; discriminate. }
  split; [reflexivity|]. split; [reflexivity|]. split; [reflexivity|].
  split; [exact Hnot|].
  apply (split_drops_feature_column 3 w _ Example.orders Example.quantity);
    [reflexivity | reflexivity | reflexivity | exact Hnot].
Defined.

(** ** Termination *)

(** X11.  After [set_data] on a well-formed table, [split] always ends,
    whatever the index of the combo box, and in one of three ways: with
    [AttributeError] when the index is below 1, with [IndexError] when it
    is beyond the model, and otherwise by sending a table.  It never
    raises another exception and, given enough fuel, never runs out of
    it: the loop [while rows_added < row[col]] is only ever run on the
    integer-valued cells of a listed column. *)
Theorem split_ends (t : Table) (w0 : widget) (i : Z) :
  Table_ok t = true ->
  let w := with_currentIndex i (snd (set_data (Some t) w0)) in
  exists fuel0, forall fuel, (fuel0 <= fuel)%nat ->
    (i < 1 /\ split fuel w = (Raise AttributeError, w))
    \/ (Z.of_nat (List.length (features w)) <= i
        /\ split fuel w = (Raise IndexError, w))
    \/ (1 <= i < Z.of_nat (List.length (features w))
        /\ exists res, split fuel w = (Ok tt, with_sent (Some res) w)).
Proof.
  intros Hok w.
  destruct (set_data_eligible t w0 Hok) as (vs & Hset & _).
  subst w. rewrite Hset. cbn [snd].
  set (w1 := with_features (select_feature :: map Column vs)
                           (with_data (Some t) w0)) in *.
  set (w := with_currentIndex i w1).
  assert (Hcol : selected_col w =
                 if i <? 1 then Ok None
                 else match nth_error (features w1) (Z.to_nat i) with
                      | Some it => Ok (Some it)
                      | None => Raise IndexError
                      end) by reflexivity.
  destruct (Z.ltb_spec i 1) as [Hlt|Hge].
  - exists O. intros fuel _. left. split; [exact Hlt|].
    unfold split, bind, read. now rewrite Hcol.
  - destruct (nth_error (features w1) (Z.to_nat i)) as [it|] eqn:Hnth.
    + apply nth_error_columns in Hnth as Hin; [|exact Hge].
      destruct Hin as (C & -> & _).
      destruct (split_selected t w0 w1 i C Hok Hset Hge Hnth)
        as (fs & _ & _ & Hsplit).
      exists (fuel_for fs). intros fuel Hfuel. right. right. split.
      * split; [exact Hge|].
        assert (Z.to_nat i < List.length (features w1))%nat
          by (apply nth_error_Some; congruence).
        change (features w) with (features w1). lia.
      * eexists. apply Hsplit. exact Hfuel.
    + exists O. intros fuel _. right. left.
      apply nth_error_None in Hnth. split.
      * change (features w) with (features w1). lia.
      * unfold split, bind, read. now rewrite Hcol.
Qed.

Lemma split_ends_witness :
  Table_ok Example.stock = true
  /\ let w := with_currentIndex 1 (snd (set_data (Some Example.stock) init)) in
     exists fuel0, forall fuel, (fuel0 <= fuel)%nat ->
       (1 < 1 /\ split fuel w = (Raise AttributeError, w))
       \/ (Z.of_nat (List.length (features w)) <= 1
           /\ split fuel w = (Raise IndexError, w))
       \/ (1 <= 1 < Z.of_nat (List.length (features w))
           /\ exists res, split fuel w = (Ok tt, with_sent (Some res) w)).
Proof.
  split; [reflexivity|].
  apply (split_ends Example.stock init 1). reflexivity.
Defined.

Lemma split_while_infinite (d nd : Domain) (row : Row) (col : string) :
  Row_getitem d row col = Ok (Num (S754_infinity false)) ->
  forall (fuel : nat) (res res' : Table) (rows_added : Z),
    split_while fuel d nd row col res rows_added <> Ok res'.
Proof.
  intros Hget. induction fuel as [|fuel IH]; intros res res' ra;
    [discriminate|].
  simpl. rewrite Hget. simpl.
  destruct (Instance nd d row) as [inst| |]; simpl; try discriminate.
  apply IH.
Qed.

Lemma ofold_never {A B} (body : A -> B -> outcome A) (l : list B) (b : B) :
  In b l -> (forall acc acc', body acc b <> Ok acc') ->
  forall acc acc', ofold body l acc <> Ok acc'.
Proof.
  intros Hin Hb. induction l as [|a l IH]; [contradiction|].
  intros acc acc'. simpl.
  destruct (body acc a) as [acc1| |] eqn:E; simpl; try discriminate.
  destruct Hin as [-> | Hin]; [now elim (Hb acc acc1) | now apply IH].
Qed.

(** X12.  A column that holds plus infinity in some row is never accepted
    by [is_integer_col]; and it has to be so, since the body of [split],
    run on such a column, returns for no amount of fuel: its loop
    [while rows_added < row[col]] has no bound of its own. *)
Theorem infinite_quantity (t : Table) (r : Row) (v : Var) :
  In r (rows t) ->
  Row_getitem (domain t) r (name v) = Ok (Num (S754_infinity false)) ->
  (forall w, data w = Some t -> is_integer_col w v <> Ok true)
  /\ (forall fuel res, split_table fuel t (name v) <> Ok res).
Proof.
  intros Hr Hget. split.
  - intros w Hd H. apply (is_integer_col_true w t v Hd) in H as [_ Hint].
    unfold integer_valued in Hint. rewrite Forall_forall in Hint.
    destruct (Hint r Hr) as (f & Hf & Hc). rewrite Hget in Hf.
    injection Hf as <-. destruct Hc; discriminate.
  - intros fuel res. unfold split_table.
    apply (ofold_never _ _ r Hr). intros acc acc'.
    destruct (Instance _ (domain t) r) as [inst| |]; simpl; try discriminate.
    rewrite Hget. simpl. apply split_while_infinite. exact Hget.
Qed.

Lemma infinite_quantity_witness :
  let r := Example.row "Lisa" "pie" (S754_infinity false) in
  In r (rows Example.endless)
  /\ Row_getitem (domain Example.endless) r (name Example.quantity)
     = Ok (Num (S754_infinity false))
  /\ (forall w, data w = Some Example.endless ->
                is_integer_col w Example.quantity <> Ok true)
  /\ (forall fuel res,
         split_table fuel Example.endless (name Example.quantity) <> Ok res).
Proof.
  intros r. split; [simpl; auto|]. split; [reflexivity|].
  apply (infinite_quantity Example.endless r Example.quantity);
    [simpl; auto | reflexivity].
Defined.

(** ** The order of the list *)

Lemma ofilter_filter {A} (q : A -> outcome bool) (l r : list A) :
  ofilter q l = Ok r ->
  r = filter (fun a => match q a with Ok true => true | _ => false end) l.
Proof.
  revert r; induction l as [|a l IH]; simpl; intros r H.
  - now injection H as <-.
  - apply obind_Ok in H as (b & Hb & H).
    apply obind_Ok in H as (r' & Hr' & [= <-]).
    rewrite Hb, (IH r' Hr'). now destruct b.
Qed.

Lemma unique_NoDup (l : list Var) : unique (map name l) = true -> NoDup l.
Proof.
  induction l as [|a l IH]; simpl; intros H; constructor.
  - apply andb_true_iff in H as [H _]. apply negb_true_iff in H.
    apply unique_not_In in H. intros Hin. apply H. now apply in_map.
  - apply IH. now apply andb_true_iff in H as [_ H].
Qed.

(** X13.  The columns that [set_data] lists for a well-formed table are
    a selection of [domain.variables] in the declared order (the
    attributes first, then the class variables), and no column is listed
    twice. *)
Theorem listed_in_declared_order (t : Table) (w0 : widget) :
  Table_ok t = true ->
  exists vs p,
    features (snd (set_data (Some t) w0)) = select_feature :: map Column vs
    /\ vs = filter p (attributes (domain t) ++ class_vars (domain t))
    /\ NoDup vs.
Proof.
  intros Hok.
  assert (Hnodup : NoDup (variables (domain t))).
  { apply unique_NoDup. apply Table_ok_domain in Hok. unfold Domain_ok in Hok.
    rewrite map_app in Hok. now apply unique_app_l in Hok. }
  rewrite set_data_Some. cbv zeta.
  set (w := with_features [select_feature] (with_data (Some t) w0)).
  destruct (Table_bool t && negb (Domain_empty (domain t))).
  - destruct (ofilter (is_integer_col w) (variables (domain t))) as [vs|e|] eqn:E.
    + apply ofilter_filter in E. exists vs. eexists.
      split; [reflexivity|]. split; [exact E|].
      rewrite E. now apply NoDup_filter.
    + exists [], (fun _ => false). split; [reflexivity|]. split; [|constructor].
      clear. induction (attributes (domain t) ++ class_vars (domain t))%list; auto.
    + exists [], (fun _ => false). split; [reflexivity|]. split; [|constructor].
      clear. induction (attributes (domain t) ++ class_vars (domain t))%list; auto.
  - exists [], (fun _ => false). split; [reflexivity|]. split; [|constructor].
    clear. induction (attributes (domain t) ++ class_vars (domain t))%list; auto.
Qed.

Lemma listed_in_declared_order_witness :
  Table_ok Example.weighed = true
  /\ exists vs p,
       features (snd (set_data (Some Example.weighed) init))
       = select_feature :: map Column vs
       /\ vs = filter p (attributes (domain Example.weighed)
                         ++ class_vars (domain Example.weighed))
       /\ NoDup vs.
Proof.
  split; [reflexivity|].
  apply (listed_in_declared_order Example.weighed init). reflexivity.
Defined.

(** ** Columns and tables that offer nothing *)

(** X14.  One cell is enough to keep a column out of the list: when some
    row of the table holds, in the column, a float that is not NaN and
    has a fractional part (or is infinite), or holds a string, the column
    is not among the entries that [set_data] computes, whatever the other
    rows hold. *)
Theorem one_cell_excludes_column (t : Table) (r : Row) (v : Var) (c : value)
        (w0 : widget) :
  In r (rows t) ->
  Row_getitem (domain t) r (name v) = Ok c ->
  (forall f, c = Num f ->
             Float.isnan f = false /\ Float.mod1_is_zero f = false) ->
  ~ In (Column v) (features (snd (set_data (Some t) w0))).
Proof.
  intros Hr Hget Hbad Hin.
  destruct (set_data_shape (Some t) w0) as (vs & Hfs & Hd & _ & Hvs).
  rewrite Hfs in Hin. destruct Hin as [Hin|Hin]; [discriminate|].
  apply in_map_iff in Hin as (u & [= ->] & Hu).
  destruct (Hvs v Hu) as (t' & [= <-] & _ & Hint).
  apply (is_integer_col_true _ t v Hd) in Hint as [_ Hint].
  unfold integer_valued in Hint. rewrite Forall_forall in Hint.
  destruct (Hint r Hr) as (f & Hf & Hc). rewrite Hget in Hf.
  injection Hf as ->. destruct (Hbad f eq_refl) as [Hn Hm].
  destruct Hc; congruence.
Qed.

Lemma one_cell_excludes_column_witness :
  let r := {| x := [Example.one_and_a_half; Float.of_int 2]; y := [];
              row_metas := [] |} in
  In r (rows Example.weighed)
  /\ Row_getitem (domain Example.weighed) r (name Example.weight)
     = Ok (Num Example.one_and_a_half)
  /\ (forall f, Num Example.one_and_a_half = Num f ->
                Float.isnan f = false /\ Float.mod1_is_zero f = false)
  /\ ~ In (Column Example.weight)
          (features (snd (set_data (Some Example.weighed) init))).
Proof.
  intros r.
  assert (Hbad : forall f, Num Example.one_and_a_half = Num f ->
                           Float.isnan f = false /\ Float.mod1_is_zero f = false).
  { intros f [= <-]. split; reflexivity. }
  split; [simpl; auto|]. split; [reflexivity|]. split; [exact Hbad|].
  apply (one_cell_excludes_column Example.weighed r Example.weight
                                  (Num Example.one_and_a_half) init);
    [simpl; auto | reflexivity | exact Hbad].
Defined.

(** X15.  After [set_data] on no table, on a table without rows or on a
    table without columns, the model holds the placeholder alone, so
    [split] raises for every index of the combo box and sends nothing:
    not even an empty table can be obtained from a table without
    rows. *)
Theorem nothing_to_split (d : option Table) (w0 : widget) (i : Z)
        (fuel : nat) :
  (forall t, d = Some t -> rows t = [] \/ Domain_empty (domain t) = true) ->
  let w := with_currentIndex i (snd (set_data d w0)) in
  features w = [select_feature]
  /\ exists e, split fuel w = (Raise e, w).
Proof.
  intros Hd w.
  assert (Hfs : features w = [select_feature]).
  { subst w. destruct d as [t|]; [|reflexivity].
    rewrite set_data_Some. cbv zeta.
    destruct (Hd t eq_refl) as [Hrows|Hdom].
    - unfold Table_bool. rewrite Hrows. reflexivity.
    - rewrite Hdom, andb_false_r. reflexivity. }
  split; [exact Hfs|].
  assert (Hcol : selected_col w =
                 if i <? 1 then Ok None
                 else match nth_error (features w) (Z.to_nat i) with
                      | Some it => Ok (Some it)
                      | None => Raise IndexError
                      end) by reflexivity.
  unfold split, bind, read. rewrite Hcol, Hfs.
  destruct (Z.ltb_spec i 1) as [Hlt|Hge]; [eexists; reflexivity|].
  replace (Z.to_nat i) with (S (Z.to_nat (i - 1))) by lia.
  destruct (Z.to_nat (i - 1)); eexists; reflexivity.
Qed.

Lemma nothing_to_split_witness :
  (forall t, Some Example.no_orders = Some t ->
             rows t = [] \/ Domain_empty (domain t) = true)
  /\ let w := with_currentIndex 1 (snd (set_data (Some Example.no_orders) init)) in
     features w = [select_feature]
     /\ exists e, split 1 w = (Raise e, w).
Proof.
  assert (H : forall t, Some Example.no_orders = Some t ->
                        rows t = [] \/ Domain_empty (domain t) = true).
  { intros t [= <-]. now left. }
  split; [exact H|].
  apply (nothing_to_split (Some Example.no_orders) init 1 1 H).
Defined.
